(** * Real-time Slack listener: ingestion and durable-append pipeline

    A shallow embedding of [src/main.py] (class [RealtimeSlackListener]):
    the JSON data the listener handles, the backing file
    [slack_messages.json], the profile lookup, the event filter and the
    envelope handler, followed by the properties of the specification that
    the code satisfies or fails to satisfy. *)

From stdpp Require Import gmap strings list fin_maps.
From Stdlib Require Import ZArith Ascii.

Local Open Scope string_scope.
Local Open Scope list_scope.
Set Warnings "-register-all".

(** ** JSON values

    Python's [json] module maps a document to [None], [bool], [int],
    [float], [str], [list] and [dict] with string keys.  A float is kept by
    its [repr]; none of the listener's decisions looks inside a number.  A
    [str] is kept by the bytes of its generalised UTF-8 form, in which a
    surrogate code point that is not part of a pair takes three bytes, the
    first 237 and the second between 160 and 191. *)

Inductive json : Type :=
| JNull
| JBool (b : bool)
| JInt (n : Z)
| JFloat (repr : string)
| JString (s : string)
| JArray (items : list json)
| JObject (fields : gmap string json).

(** A [str] with a lone surrogate is what [json.loads] makes of an escape
    such as [\ud800]; [str.encode('utf-8')] refuses it. *)
Fixpoint has_lone_surrogate (s : string) : bool :=
  match s with
  | String a ((String b _) as rest) =>
      (Nat.eqb (nat_of_ascii a) 237
       && Nat.leb 160 (nat_of_ascii b) && Nat.leb (nat_of_ascii b) 191)
      || has_lone_surrogate rest
  | _ => false
  end.

Definition utf8_encodable (s : string) : bool := negb (has_lone_surrogate s).

(** Whether every [str] of a value, keys included, can be written to a
    file opened with [encoding='utf-8'] when [ensure_ascii=False] leaves
    the characters as they are. *)
Fixpoint encodable (j : json) : bool :=
  match j with
  | JString s => utf8_encodable s
  | JArray items => forallb encodable items
  | JObject fields =>
      map_fold (fun k v acc => utf8_encodable k && encodable v && acc) true fields
  | _ => true
  end.

Arguments encodable : simpl never.

(** [x == "literal"] where [x] came out of a JSON document: only a [str]
    with the same characters is equal to a [str]. *)
Definition eq_str (x : json) (s : string) : bool :=
  match x with
  | JString s' => bool_decide (s' = s)
  | _ => false
  end.

(** [x is None]. *)
Definition is_None (x : json) : bool :=
  match x with
  | JNull => true
  | _ => false
  end.

(** [d.get(k)] and [d.get(k, default)]. *)
Definition dict_get (d : gmap string json) (k : string) : json :=
  default JNull (d !! k).

Definition dict_get_default (d : gmap string json) (k : string) (dflt : json) : json :=
  default dflt (d !! k).

(** [k in d]. *)
Definition dict_in (k : string) (d : gmap string json) : bool :=
  bool_decide (is_Some (d !! k)).

(** ** Exceptions and results *)


Inductive exn : Type :=
| KeyError (key : string)
| TypeError
| AttributeError
| ValueError
| UnicodeEncodeError
| JSONDecodeError
| OSError
| SlackApiError
| OtherException (name : string).

Inductive result (A : Type) : Type :=
| Ok (a : A)
| Raise (e : exn).
Arguments Ok {A} a.
Arguments Raise {A} e.

Definition raises {A} (r : result A) : Prop :=
  match r with
  | Ok _ => False
  | Raise _ => True
  end.

(** [d[k]] on a [dict]. *)
Definition dict_subscript (d : gmap string json) (k : string) : result json :=
  match d !! k with
  | Some v => Ok v
  | None => Raise (KeyError k)
  end.

(** [x[k]] with a string key, [x] any value: only a [dict] can be indexed
    by a string. *)
Definition subscript (x : json) (k : string) : result json :=
  match x with
  | JObject d => dict_subscript d k
  | _ => Raise TypeError
  end.

(** [x.get(k, default)], [x] any value: only a [dict] has the method. *)
Definition method_get (x : json) (k : string) (dflt : json) : result json :=
  match x with
  | JObject d => Ok (dict_get_default d k dflt)
  | _ => Raise AttributeError
  end.

(** [except SlackApiError] selects one class; [except Exception] selects
    every exception modelled here. *)
Definition is_SlackApiError (e : exn) : bool :=
  match e with
  | SlackApiError => true
  | _ => false
  end.

(** ** Serialised text

    [json.dump] and [json.load] belong to the Python standard library.  The
    embedding takes them as an interface over the type of file contents:
    [json_loads] answers [None] where [json.load] raises a decode error, a
    dumped value that can be encoded loads back, and a text of length zero
    is not a document.  [json.dump] writes a value piece by piece; at the
    first [str] that cannot be encoded it raises, and the pieces written
    before stay in the file: [json_partial] is that beginning, which is
    not a document. *)

Class JsonCodec (text : Type) : Type := {
  empty_text : text;
  st_size : text -> nat;
  json_dumps : json -> text;
  json_partial : json -> text;
  json_loads : text -> option json;
  st_size_empty : st_size empty_text = 0;
  loads_dumps : forall j, encodable j = true -> json_loads (json_dumps j) = Some j;
  loads_partial : forall j, encodable j = false -> json_loads (json_partial j) = None;
  loads_nonempty : forall t j, json_loads t = Some j -> 0 < st_size t
}.

(** An instance of the interface, used to run the listener on concrete
    inputs: a file is blank, holds text that is not JSON, holds the
    rendering of one value, or holds the beginning of the rendering of a
    value, up to its first [str] that cannot be encoded. *)
Inductive document : Type :=
| Blank
| Garbage (raw : string)
| Rendered (j : json)
| Beginning (j : json).

(** The rendering of a list or of a dict begins with its bracket, so its
    beginning has a length; the beginning of a lone [str] is empty. *)
Definition document_size (d : document) : nat :=
  match d with
  | Blank => 0
  | Garbage raw => String.length raw
  | Rendered _ => 1
  | Beginning (JArray _) | Beginning (JObject _) => 1
  | Beginning _ => 0
  end.

Definition document_loads (d : document) : option json :=
  match d with
  | Rendered j => Some j
  | _ => None
  end.

#[export] Instance document_codec : JsonCodec document := {|
  empty_text := Blank;
  st_size := document_size;
  json_dumps := Rendered;
  json_partial := Beginning;
  json_loads := document_loads;
  st_size_empty := eq_refl;
  loads_dumps := fun j _ => eq_refl;
  loads_partial := fun j _ => eq_refl;
  loads_nonempty :=
    ltac:(intros [| raw | j' | j'] j; simpl; intros Hd; try discriminate; lia)
|}.

(** ** The listener's world and its effects *)

(** What the console receives, one constructor per [print] call of the
    class, with the values interpolated into the line. *)
Inductive console : Type :=
| CreatedNewFile
| MessageSaved
| ErrorSaving (e : exn)
| CreatedFresh
| CriticalError (e : exn)
| ReceivedEventType (ty : string)
| EventDetails (ty channel : json)
| ProcessingFrom (user : json)
| SkippingEvent (ty channel : json) (has_user : bool) (subtype : json)
| InteractiveReceived
| OtherEventType (ty : string)
| NewMessage (formatted_time : json) (real_name name text : json) (channel : string).

Section Listener.

Context {text : Type} `{Codec : JsonCodec text}.

(** The backing file [MESSAGES_FILE] is the only file the listener touches:
    [file] is its content when it exists, [writable] tells whether
    [open(MESSAGES_FILE, 'w')] succeeds and [readable] whether
    [open(MESSAGES_FILE, 'r')] does. *)
Record world : Type := World {
  file : option text;
  writable : bool;
  readable : bool
}.

Inductive effect : Type :=
| Ack (envelope_id : string)
| Stdout (line : console)
| UsersInfo (user : json)
| Truncated
| Written (t : text).

(** A computation reads and updates the world, logs its effects in order
    and returns or raises. *)
Definition M (A : Type) : Type := world -> result A * world * list effect.

Definition ret {A} (a : A) : M A := fun w => (Ok a, w, []).

Definition throw {A} (e : exn) : M A := fun w => (Raise e, w, []).

Definition bind {A B} (m : M A) (k : A -> M B) : M B := fun w =>
  match m w with
  | (Ok a, w1, t1) =>
      match k a w1 with
      | (r, w2, t2) => (r, w2, t1 ++ t2)
      end
  | (Raise e, w1, t1) => (Raise e, w1, t1)
  end.

(** [try: m  except <class> as e: h e], the class given by [catches]. *)
Definition try_except {A} (m : M A) (catches : exn -> bool) (h : exn -> M A) : M A :=
  fun w =>
  match m w with
  | (Raise e, w1, t1) =>
      if catches e then
        match h e w1 with
        | (r, w2, t2) => (r, w2, t1 ++ t2)
        end
      else (Raise e, w1, t1)
  | ok => ok
  end.

Definition lift {A} (r : result A) : M A := fun w => (r, w, []).

Definition emit (e : effect) : M unit := fun w => (Ok tt, w, [e]).

Definition print (line : console) : M unit := emit (Stdout line).

#[local] Notation "'do' x <- m ; k" := (bind m (fun x => k))
  (at level 10, x name, m at level 100, k at level 200).
#[local] Notation "'run' m ; k" := (bind m (fun _ => k))
  (at level 10, m at level 100, k at level 200).

Definition result_of {A} (o : result A * world * list effect) : result A := o.1.1.
Definition world_of {A} (o : result A * world * list effect) : world := o.1.2.
Definition trace_of {A} (o : result A * world * list effect) : list effect := o.2.

(** *** File operations *)

(** [Path(MESSAGES_FILE).exists()] *)
Definition path_exists : M bool := fun w =>
  (Ok (bool_decide (is_Some (file w))), w, []).

(** [Path(MESSAGES_FILE).stat().st_size] *)
Definition path_st_size : M nat := fun w =>
  match file w with
  | Some t => (Ok (st_size t), w, [])
  | None => (Raise OSError, w, [])
  end.

(** [with open(MESSAGES_FILE, 'r') as f: json.load(f)]: the open can
    fail, and so can the decoding of what is read. *)
Definition load_file : M json := fun w =>
  match file w with
  | Some t =>
      if readable w then
        match json_loads t with
        | Some j => (Ok j, w, [])
        | None => (Raise JSONDecodeError, w, [])
        end
      else (Raise OSError, w, [])
  | None => (Raise OSError, w, [])
  end.

(** [open(MESSAGES_FILE, 'w')]: creates the file or cuts it to length zero. *)
Definition open_w : M unit := fun w =>
  if writable w
  then (Ok tt, World (Some empty_text) (writable w) (readable w), [Truncated])
  else (Raise OSError, w, []).

(** [json.dump(data, f, indent=2, ensure_ascii=False)] into the file just
    opened, then close.  A value that cannot be encoded makes the dump
    raise part of the way; closing the file keeps what was written. *)
Definition dump (data : json) : M unit := fun w =>
  if encodable data
  then (Ok tt, World (Some (json_dumps data)) (writable w) (readable w),
        [Written (json_dumps data)])
  else (Raise UnicodeEncodeError,
        World (Some (json_partial data)) (writable w) (readable w),
        [Written (json_partial data)]).

Definition dump_file (data : json) : M unit :=
  run open_w; dump data.

(** The content of the file after each file effect of a trace: after the
    open that cuts it, and after the dump, complete or not.  The states
    that a long dump passes through while it runs are not listed. *)
Definition file_states (tr : list effect) : list text :=
  omap (fun e =>
          match e with
          | Truncated => Some empty_text
          | Written t => Some t
          | _ => None
          end) tr.

(** *** The listener object *)

(** [web_client_users_info] stands for [self.web_client.users_info(user=..)],
    which returns the response data or raises; [clock_format] stands for
    [float], [datetime.fromtimestamp] and [strftime] of the local zone. *)
Record RealtimeSlackListener : Type := {
  channel_id : string;
  channel_name : string;
  web_client_users_info : json -> result (gmap string json);
  clock_format : json -> result string
}.

Variable self : RealtimeSlackListener.

Definition store (messages : list json) : json :=
  JObject (<["channel_name" := JString (channel_name self)]>
          (<["channel_id" := JString (channel_id self)]>
          (<["messages" := JArray messages]> ∅))).

Definition initialize_messages_file : M unit :=
  do ex <- path_exists;
  if negb ex then
    run dump_file (store []);
    print CreatedNewFile
  else ret tt.

(** [data["messages"].append(message_data)] *)
Definition append_message (data : json) (message_data : json) : result json :=
  match data with
  | JObject d =>
      match d !! "messages" with
      | Some (JArray ms) => Ok (JObject (<["messages" := JArray (ms ++ [message_data])]> d))
      | Some _ => Raise AttributeError
      | None => Raise (KeyError "messages")
      end
  | _ => Raise TypeError
  end.

Definition save_message_to_json (message_data : json) : M unit :=
  try_except
    (do ex <- path_exists;
     do nonempty <- (if ex then do sz <- path_st_size; ret (bool_decide (0 < sz))
                     else ret false);
     do data <- (if nonempty then load_file else ret (store []));
     do data' <- lift (append_message data message_data);
     run dump_file data';
     print MessageSaved)
    (fun _ => true)
    (fun e =>
       run print (ErrorSaving e);
       try_except
         (run dump_file (store [message_data]);
          print CreatedFresh)
         (fun _ => true)
         (fun fallback_error => print (CriticalError fallback_error))).

(** [response["user"]]: a [SlackResponse] answers [None] for a key its
    data does not have. *)
Definition response_getitem (response : gmap string json) (k : string) : json :=
  dict_get response k.

Definition placeholder (user_id : json) : gmap string json :=
  <["id" := user_id]>
  (<["name" := JString "Unknown"]>
  (<["real_name" := JString ""]>
  (<["display_name" := JString ""]>
  (<["email" := JString ""]> ∅)))).

Definition get_user_info (user_id : json) : M (gmap string json) :=
  try_except
    (run emit (UsersInfo user_id);
     do response <- lift (web_client_users_info self user_id);
     let user := response_getitem response "user" in
     do id <- lift (subscript user "id");
     do name <- lift (subscript user "name");
     do real_name <- lift (method_get user "real_name" (JString ""));
     do profile1 <- lift (method_get user "profile" (JObject ∅));
     do display_name <- lift (method_get profile1 "display_name" (JString ""));
     do profile2 <- lift (method_get user "profile" (JObject ∅));
     do email <- lift (method_get profile2 "email" (JString ""));
     ret (<["id" := id]>
         (<["name" := name]>
         (<["real_name" := real_name]>
         (<["display_name" := display_name]>
         (<["email" := email]> ∅))))))
    is_SlackApiError
    (fun _ => ret (placeholder user_id)).

Definition format_timestamp (ts : json) : M json :=
  do formatted <- lift (clock_format self ts);
  ret (JString formatted).

Definition print_message (event : gmap string json) : M unit :=
  do user_id <- lift (dict_subscript event "user");
  do user_info <- get_user_info user_id;
  do ts <- lift (dict_subscript event "ts");
  do formatted_time <- format_timestamp ts;
  do slack_timestamp <- lift (dict_subscript event "ts");
  do u_id <- lift (dict_subscript user_info "id");
  do u_name <- lift (dict_subscript user_info "name");
  do u_real_name <- lift (dict_subscript user_info "real_name");
  do u_display_name <- lift (dict_subscript user_info "display_name");
  do u_email <- lift (dict_subscript user_info "email");
  do message <- lift (dict_subscript event "text");
  let message_data :=
    JObject
      (<["timestamp" := formatted_time]>
      (<["slack_timestamp" := slack_timestamp]>
      (<["user" := JObject
                     (<["id" := u_id]>
                     (<["name" := u_name]>
                     (<["real_name" := u_real_name]>
                     (<["display_name" := u_display_name]>
                     (<["email" := u_email]> ∅)))))]>
      (<["message" := message]>
      (<["channel_name" := JString (channel_name self)]>
      (<["channel_id" := JString (channel_id self)]>
      (<["message_id" := dict_get_default event "client_msg_id" (JString "")]>
      (<["thread_ts" := dict_get_default event "thread_ts" (JString "")]>
      (<["parent_user_id" := dict_get_default event "parent_user_id" (JString "")]>
      (<["reactions" := dict_get_default event "reactions" (JArray [])]>
      (<["attachments" := dict_get_default event "attachments" (JArray [])]>
      (<["files" := dict_get_default event "files" (JArray [])]> ∅)))))))))))) in
  (* the banner: seven lines, logged as one entry *)
  do p_real_name <- lift (dict_subscript user_info "real_name");
  do p_name <- lift (dict_subscript user_info "name");
  do p_text <- lift (dict_subscript event "text");
  run print (NewMessage formatted_time p_real_name p_name p_text (channel_name self));
  save_message_to_json message_data.

(** An inbound envelope ([SocketModeRequest]). *)
Record SocketModeRequest : Type := {
  req_type : string;
  envelope_id : string;
  payload : gmap string json
}.

(** The condition of lines 190-193: [event["type"]] is a subscript and
    raises on an event without a type; the other three tests cannot raise. *)
Definition accept (event : gmap string json) : result bool :=
  match dict_subscript event "type" with
  | Ok ty =>
      Ok (eq_str ty "message"
          && eq_str (dict_get event "channel") (channel_id self)
          && dict_in "user" event
          && is_None (dict_get event "subtype"))
  | Raise e => Raise e
  end.

(** [event.get(..)] on the value of [req.payload["event"]]. *)
Definition as_dict (x : json) : result (gmap string json) :=
  match x with
  | JObject d => Ok d
  | _ => Raise AttributeError
  end.

Definition handle_message_events (req : SocketModeRequest) : M unit :=
  run emit (Ack (envelope_id req));
  run print (ReceivedEventType (req_type req));
  if bool_decide (req_type req = "events_api") then
    do ev <- lift (dict_subscript (payload req) "event");
    do event <- lift (as_dict ev);
    run print (EventDetails (dict_get_default event "type" (JString "unknown"))
                            (dict_get_default event "channel" (JString "unknown")));
    do accepted <- lift (accept event);
    if accepted then
      do user <- lift (dict_subscript event "user");
      run print (ProcessingFrom user);
      print_message event
    else
      print (SkippingEvent (dict_get event "type") (dict_get event "channel")
                           (dict_in "user" event) (dict_get event "subtype"))
  else if bool_decide (req_type req = "interactive") then
    print InteractiveReceived
  else
    print (OtherEventType (req_type req)).

End Listener.

Arguments world text : clear implicits.

Notation "'do' x <- m ; k" := (bind m (fun x => k))
  (at level 10, x name, m at level 100, k at level 200).
Notation "'run' m ; k" := (bind m (fun _ => k))
  (at level 10, m at level 100, k at level 200).

(** ** Reading a store *)

(** What lines 83 and 93 need of the file content for the [try] block to
    reach the write: it loads, the value loaded is a [dict], and its
    ["messages"] entry is a [list]. *)
Definition parses_as_store {text : Type} `{JsonCodec text} (t : text) : Prop :=
  exists d ms, json_loads t = Some (JObject d) /\ d !! "messages" = Some (JArray ms).


(** Appending the records of [rs] one call after the other. *)
Fixpoint save_each {text : Type} `{JsonCodec text}
    (self : RealtimeSlackListener) (rs : list json) : M unit :=
  match rs with
  | [] => ret tt
  | r :: rs' => run save_message_to_json self r; save_each self rs'
  end.

(** The value that the [try] block of [save_message_to_json] has ready
    when it reaches the write (lines 80-93), or the exception that stops
    it before: reading and appending change nothing in the world. *)
Definition prepared {text : Type} `{JsonCodec text}
    (self : RealtimeSlackListener) (message_data : json) (w : world text)
    : result json :=
  match file w with
  | Some t =>
      if bool_decide (0 < st_size t) then
        if readable w then
          match json_loads t with
          | Some data => append_message data message_data
          | None => Raise JSONDecodeError
          end
        else Raise OSError
      else append_message (store self []) message_data
  | None => append_message (store self []) message_data
  end.

(** What a dump of [v] leaves in the file: the rendering of [v], or its
    beginning when [v] cannot be encoded. *)
Definition write_result {text : Type} `{JsonCodec text} (v : json) : text :=
  if encodable v then json_dumps v else json_partial v.

(** What the handler of lines 101-114 leaves when the file can be opened
    for writing: after the effects [before] of the [try] block and the
    line for the exception [e], the fresh store is written, in full or
    in part, and the matching line is printed. *)
Definition fallback_outcome {text : Type} `{JsonCodec text}
    (self : RealtimeSlackListener) (m : json) (e : exn)
    (before : list effect) (rd : bool)
    : result unit * world text * list effect :=
  (Ok tt, World (Some (write_result (store self [m]))) true rd,
   before ++
   [Stdout (ErrorSaving e); Truncated; Written (write_result (store self [m]));
    Stdout (if encodable (store self [m]) then CreatedFresh
            else CriticalError UnicodeEncodeError)]).


(** [v] is a dict whose messages end with [m]. *)
Definition ends_with (m v : json) : Prop :=
  exists d ms, v = JObject d /\ d !! "messages" = Some (JArray (ms ++ [m])).

(** The content [t] is a document with the three fields of a store and no
    other: the channel name, the channel id and the messages given. *)
Definition holds_store {text : Type} `{JsonCodec text} (t : text)
    (name id : string) (ms : list json) : Prop :=
  exists d,
    json_loads t = Some (JObject d)
    /\ dom d = ({["channel_name"; "channel_id"; "messages"]} : gset string)
    /\ d !! "channel_name" = Some (JString name)
    /\ d !! "channel_id" = Some (JString id)
    /\ d !! "messages" = Some (JArray ms).

(** The profile field read through [user.get("profile", {}).get(k, "")]. *)
Definition profile_field (user : gmap string json) (k : string) : option json :=
  match user !! "profile" with
  | Some (JObject p) => p !! k
  | _ => None
  end.

(** Every effect a computation logs, from any world, satisfies [P]. *)
Definition emits_only {text : Type} (P : effect (text:=text) -> Prop)
    {A : Type} (m : M A) : Prop :=
  forall w : world text, Forall P (trace_of (m w)).

Definition is_Ack {text : Type} (e : effect (text:=text)) : bool :=
  match e with
  | Ack _ => true
  | _ => false
  end.

(** The effects of enrichment and recording: the lookup call and the
    writes to the backing file. *)
Definition is_processing {text : Type} (e : effect (text:=text)) : bool :=
  match e with
  | UsersInfo _ | Truncated | Written _ => true
  | _ => false
  end.

(** The filter as the specification words it: the subtype is absent. *)
Definition spec_accept (event : gmap string json) (tracked : string) : Prop :=
  event !! "type" = Some (JString "message")
  /\ event !! "channel" = Some (JString tracked)
  /\ is_Some (event !! "user")
  /\ event !! "subtype" = None.

(** ** Concrete inputs *)

Module Sample.

Definition bob (user_id : json) : gmap string json :=
  <["user" := JObject (<["id" := user_id]>
                      (<["name" := JString "bob"]>
                      (<["real_name" := JString "Bob Smith"]> ∅)))]> ∅.

(** A clock for the runs below: the rendering of a [str] timestamp is the
    timestamp itself, anything else is refused as [float] refuses it. *)
Definition clock (ts : json) : result string :=
  match ts with
  | JString s => Ok s
  | _ => Raise TypeError
  end.

(** The lookup answers with bob's user object. *)
Definition listener : RealtimeSlackListener := {|
  channel_id := "C1";
  channel_name := "general";
  web_client_users_info := fun user_id => Ok (bob user_id);
  clock_format := clock
|}.

(** The lookup fails below the API: the connection cannot be made. *)
Definition offline : RealtimeSlackListener := {|
  channel_id := "C1";
  channel_name := "general";
  web_client_users_info := fun _ => Raise (OtherException "URLError");
  clock_format := clock
|}.

(** The platform refuses the lookup. *)
Definition denied : RealtimeSlackListener := {|
  channel_id := "C1";
  channel_name := "general";
  web_client_users_info := fun _ => Raise SlackApiError;
  clock_format := clock
|}.

Definition hi : gmap string json :=
  <["type" := JString "message"]>
  (<["channel" := JString "C1"]>
  (<["user" := JString "U1"]>
  (<["text" := JString "hi"]>
  (<["ts" := JString "1700000000.000001"]> ∅)))).

Definition hi_null_subtype : gmap string json := <["subtype" := JNull]> hi.

Definition hi_without_text : gmap string json := delete "text" hi.

Definition envelope (event : gmap string json) : SocketModeRequest := {|
  req_type := "events_api";
  envelope_id := "env-1";
  payload := <["event" := JObject event]> ∅
|}.

Definition record (ts : string) : json :=
  JObject (<["slack_timestamp" := JString ts]> ∅).

(** A [str] made of the one lone surrogate U+D800, as [json.loads]
    builds it from the escape [\ud800] of an incoming payload. *)
Definition lone_surrogate : string :=
  String (ascii_of_nat 237) (String (ascii_of_nat 160)
    (String (ascii_of_nat 128) EmptyString)).

Definition surrogate_record : json :=
  JObject (<["message" := JString lone_surrogate]> ∅).

Definition no_file : world document := World None true true.

Definition empty_store : world document :=
  World (Some (Rendered (store listener []))) true true.

Definition corrupt : world document :=
  World (Some (Garbage "{not json")) true true.

End Sample.

(** ** The record built by [print_message]

    The dict literal of lines 143-162.  The ["user"] entry is written
    there key by key from the profile; [get_user_info] returns exactly
    those five keys, so the copy is the profile itself. *)
Definition message_data (self : RealtimeSlackListener) (event : gmap string json)
    (formatted_time : string) (slack_timestamp : json)
    (user_info : gmap string json) (message : json) : json :=
  JObject
    (<["timestamp" := JString formatted_time]>
    (<["slack_timestamp" := slack_timestamp]>
    (<["user" := JObject user_info]>
    (<["message" := message]>
    (<["channel_name" := JString (channel_name self)]>
    (<["channel_id" := JString (channel_id self)]>
    (<["message_id" := dict_get_default event "client_msg_id" (JString "")]>
    (<["thread_ts" := dict_get_default event "thread_ts" (JString "")]>
    (<["parent_user_id" := dict_get_default event "parent_user_id" (JString "")]>
    (<["reactions" := dict_get_default event "reactions" (JArray [])]>
    (<["attachments" := dict_get_default event "attachments" (JArray [])]>
    (<["files" := dict_get_default event "files" (JArray [])]> ∅)))))))))))).

(** The keys of a profile and of a record. *)
Definition profile_keys : gset string :=
  {["id"; "name"; "real_name"; "display_name"; "email"]}.

Definition record_keys : gset string :=
  {["timestamp"; "slack_timestamp"; "user"; "message"; "channel_name";
    "channel_id"; "message_id"; "thread_ts"; "parent_user_id"; "reactions";
    "attachments"; "files"]}.

(** ** Start-up configuration (lines 17-43)

    [os.getenv] answers [None] for a variable that is not set; a variable
    set to the empty string is as false as [None]. *)
Definition getenv (environ : gmap string string) (name : string) : option string :=
  environ !! name.

Definition truthy (v : option string) : bool :=
  match v with
  | Some s => negb (bool_decide (s = ""))
  | None => false
  end.

Inductive startup_line : Type :=
| MissingHeader
| MissingVar (name : string)
| CreateDotenvHint
| CopyExampleHint.

(** The module either goes on with the four settings or leaves through
    [exit(code)] after the lines printed. *)
Inductive startup : Type :=
| Configured (bot_token app_token channel_id channel_name : option string)
| SystemExit (code : Z) (printed : list startup_line).

Definition missing_vars (environ : gmap string string) : list string :=
  let missing_vars := [] in
  let missing_vars :=
    if negb (truthy (getenv environ "SLACK_BOT_TOKEN"))
    then missing_vars ++ ["SLACK_BOT_TOKEN"] else missing_vars in
  let missing_vars :=
    if negb (truthy (getenv environ "SLACK_APP_TOKEN"))
    then missing_vars ++ ["SLACK_APP_TOKEN"] else missing_vars in
  let missing_vars :=
    if negb (truthy (getenv environ "CHANNEL_ID"))
    then missing_vars ++ ["CHANNEL_ID"] else missing_vars in
  let missing_vars :=
    if negb (truthy (getenv environ "CHANNEL_NAME"))
    then missing_vars ++ ["CHANNEL_NAME"] else missing_vars in
  missing_vars.

Definition load_configuration (environ : gmap string string) : startup :=
  let SLACK_BOT_TOKEN := getenv environ "SLACK_BOT_TOKEN" in
  let SLACK_APP_TOKEN := getenv environ "SLACK_APP_TOKEN" in
  let CHANNEL_ID := getenv environ "CHANNEL_ID" in
  let CHANNEL_NAME := getenv environ "CHANNEL_NAME" in
  if negb (forallb truthy [SLACK_BOT_TOKEN; SLACK_APP_TOKEN; CHANNEL_ID; CHANNEL_NAME])
  then SystemExit 1 ([MissingHeader] ++ map MissingVar (missing_vars environ)
                       ++ [CreateDotenvHint; CopyExampleHint])
  else Configured SLACK_BOT_TOKEN SLACK_APP_TOKEN CHANNEL_ID CHANNEL_NAME.

(** The four settings, in the order in which lines 29-36 test them. *)
Definition required_vars : list string :=
  ["SLACK_BOT_TOKEN"; "SLACK_APP_TOKEN"; "CHANNEL_ID"; "CHANNEL_NAME"].

(** ** The listening session (lines 205-238)

    [start_listening] talks to the platform through the two clients:
    [conversations_info] returns the response data or raises, [connect]
    and each [time.sleep(1)] of the keep-alive loop either complete or are
    cut short by a [KeyboardInterrupt] or by an exception. *)
Inductive signal : Type :=
| KeyboardInterrupt
| ExceptionRaised (e : exn).

Record transport : Type := {
  conversations_info : string -> result (gmap string json);
  connect : option signal;
  sleep : nat -> option signal
}.

(** The console lines of [start_listening]; the four lines printed before
    the connection are one entry.  The line for a refused channel
    interpolates the error text of the response, which the exception of
    this embedding does not carry. *)
Inductive session_line : Type :=
| StartingListener (channel_name : string)
| ConnectedToChannel (channel_id : string)
| BotCanAccess (name : json)
| BotCannotAccess
| AddBotHint
| WaitingForMessages
| StoppingListener
| SessionError (e : exn).

Inductive session_effect : Type :=
| Shows (line : session_line)
| ConversationsInfo (channel : string)
| Connect
| Sleep
| Disconnect.

(** [while True: time.sleep(1)] from the tick [tick] on.  The loop has no
    exit of its own: it ends with the first signal, and [None] says that
    [fuel] iterations went by without one. *)
Fixpoint keep_alive (net : transport) (tick fuel : nat)
    : option (signal * list session_effect) :=
  match fuel with
  | 0 => None
  | S fuel' =>
      match sleep net tick with
      | Some s => Some (s, [Sleep])
      | None =>
          match keep_alive net (S tick) fuel' with
          | Some (s, tr) => Some (s, Sleep :: tr)
          | None => None
          end
      end
  end.

(** The two handlers of lines 233-238. *)
Definition on_signal (s : signal) : list session_effect :=
  match s with
  | KeyboardInterrupt => [Shows StoppingListener; Disconnect]
  | ExceptionRaised e => [Shows (SessionError e); Disconnect]
  end.

Definition start_listening (self : RealtimeSlackListener) (net : transport)
    (fuel : nat) : option (result unit * list session_effect) :=
  let opening :=
    [Shows (StartingListener (channel_name self));
     Shows (ConnectedToChannel (channel_id self));
     ConversationsInfo (channel_id self)] in
  let access :=
    match conversations_info net (channel_id self) with
    | Ok channel_info =>
        match subscript (response_getitem channel_info "channel") "name" with
        | Ok name => Ok name
        | Raise e => Raise e
        end
    | Raise e => Raise e
    end in
  match access with
  | Raise e =>
      if is_SlackApiError e
      then Some (Ok tt, opening ++ [Shows BotCannotAccess; Shows AddBotHint])
      else Some (Raise e, opening)
  | Ok name =>
      let ready :=
        opening ++ [Shows (BotCanAccess name); Shows WaitingForMessages; Connect] in
      match connect net with
      | Some s => Some (Ok tt, ready ++ on_signal s)
      | None =>
          match keep_alive net 0 fuel with
          | Some (s, tr) => Some (Ok tt, ready ++ tr ++ on_signal s)
          | None => None
          end
      end
  end.

(** The effects up to and including the connection, for a channel whose
    name the platform returned. *)
Definition session_opening (self : RealtimeSlackListener) (name : json)
    : list session_effect :=
  [Shows (StartingListener (channel_name self));
   Shows (ConnectedToChannel (channel_id self));
   ConversationsInfo (channel_id self);
   Shows (BotCanAccess name);
   Shows WaitingForMessages;
   Connect].

(** The channel can be read: the response has a channel object with a
    name. *)
Definition channel_readable (self : RealtimeSlackListener) (net : transport)
    (name : json) : Prop :=
  exists info channel,
    conversations_info net (channel_id self) = Ok info
    /\ info !! "channel" = Some (JObject channel)
    /\ channel !! "name" = Some name.

(** ** Further concrete inputs *)

Module Scenario.

Definition full_environ : gmap string string :=
  <["SLACK_BOT_TOKEN" := "xoxb-1"]>
  (<["SLACK_APP_TOKEN" := "xapp-1"]>
  (<["CHANNEL_ID" := "C1"]>
  (<["CHANNEL_NAME" := "general"]> ∅))).

(** No app token, and a channel name set to the empty string. *)
Definition partial_environ : gmap string string :=
  <["SLACK_BOT_TOKEN" := "xoxb-1"]>
  (<["CHANNEL_ID" := "C1"]>
  (<["CHANNEL_NAME" := ""]> ∅)).

Definition general_channel : gmap string json :=
  <["channel" := JObject (<["name" := JString "general"]> ∅)]> ∅.

(** The channel is reachable and an interrupt ends the third sleep. *)
Definition interrupted : transport := {|
  conversations_info := fun _ => Ok general_channel;
  connect := None;
  sleep := fun tick => if bool_decide (tick = 2) then Some KeyboardInterrupt else None
|}.

(** The bot is not a member of the channel. *)
Definition refused : transport := {|
  conversations_info := fun _ => Raise SlackApiError;
  connect := None;
  sleep := fun _ => None
|}.

(** Nothing ever interrupts the loop. *)
Definition quiet : transport := {|
  conversations_info := fun _ => Ok general_channel;
  connect := None;
  sleep := fun _ => None
|}.

(** A user whose real name is null and whose profile carries an email. *)
Definition ann (user_id : json) : gmap string json :=
  <["user" := JObject (<["id" := user_id]>
                      (<["name" := JString "ann"]>
                      (<["real_name" := JNull]>
                      (<["profile" := JObject (<["email" := JString "ann@example.org"]> ∅)]> ∅))))]> ∅.

Definition ann_listener : RealtimeSlackListener := {|
  channel_id := "C1";
  channel_name := "general";
  web_client_users_info := fun user_id => Ok (ann user_id);
  clock_format := Sample.clock
|}.

(** A user object whose profile is null. *)
Definition null_profile_listener : RealtimeSlackListener := {|
  channel_id := "C1";
  channel_name := "general";
  web_client_users_info := fun user_id =>
    Ok (<["user" := JObject (<["id" := user_id]>
                            (<["name" := JString "eve"]>
                            (<["profile" := JNull]> ∅)))]> ∅);
  clock_format := Sample.clock
|}.

Definition read_only : world document :=
  World (Some (Rendered (store Sample.listener [Sample.record "T0"]))) false true.

Definition nowhere : world document := World None false true.

(** The store is there and can be replaced, but not opened for reading. *)
Definition unreadable : world document :=
  World (Some (Rendered (store Sample.listener [Sample.record "T0"]))) true false.

Definition one_message : world document :=
  World (Some (Rendered (store Sample.listener [Sample.record "T0"]))) true true.

Definition threaded : gmap string json :=
  <["thread_ts" := JString "1700000000.000001"]> Sample.hi.

(** The timestamp is a number nested in a list, which the clock refuses. *)
Definition listed_ts : gmap string json := <["ts" := JArray [JInt 1]]> Sample.hi.

Definition interactive_envelope : SocketModeRequest := {|
  req_type := "interactive";
  envelope_id := "env-2";
  payload := ∅
|}.

Definition empty_envelope : SocketModeRequest := {|
  req_type := "events_api";
  envelope_id := "env-3";
  payload := ∅
|}.

(** The channel lookup answers without a channel object. *)
Definition nameless : transport := {|
  conversations_info := fun _ => Ok ∅;
  connect := None;
  sleep := fun _ => None
|}.

(** The profile that the lookup of [Sample.listener] yields. *)
Definition bob_profile : gmap string json :=
  <["id" := JString "U1"]>
  (<["name" := JString "bob"]>
  (<["real_name" := JString "Bob Smith"]>
  (<["display_name" := JString ""]>
  (<["email" := JString ""]> ∅)))).

Definition hi_record : json :=
  message_data Sample.listener Sample.hi "1700000000.000001"
    (JString "1700000000.000001") bob_profile (JString "hi").


End Scenario.

(** ** Properties *)

Section Properties.

Context {text : Type} `{Codec : JsonCodec text}.
Variable self : RealtimeSlackListener.

Lemma store_fields (ms : list json) :
  exists d, store self ms = JObject d
    /\ d !! "channel_name" = Some (JString (channel_name self))
    /\ d !! "channel_id" = Some (JString (channel_id self))
    /\ d !! "messages" = Some (JArray ms).
Proof. eexists; split; [reflexivity|]. by simplify_map_eq. Qed.

(** *** Values that can be encoded *)

Lemma encodable_object (d : gmap string json) :
  encodable (JObject d) = true <->
    map_Forall (fun k v => utf8_encodable k = true /\ encodable v = true) d.
Proof.
  change (encodable (JObject d))
    with (map_fold (fun k v acc => utf8_encodable k && encodable v && acc) true d).
  apply (map_fold_weak_ind
           (fun (r : bool) (m : gmap string json) =>
              r = true <->
              map_Forall (fun k v => utf8_encodable k = true /\ encodable v = true) m)).
  - split; [intros _; apply map_Forall_empty|done].
  - intros k v m r Hk IH. rewrite !andb_true_iff, IH, map_Forall_insert by done.
    tauto.
Qed.

Lemma encodable_field (d : gmap string json) (k : string) (v : json) :
  encodable (JObject d) = true -> d !! k = Some v -> encodable v = true.
Proof. intros Hd Hk. by destruct (proj1 (encodable_object d) Hd k v Hk). Qed.

Lemma encodable_insert (d : gmap string json) (k : string) (v : json) :
  encodable (JObject d) = true ->
  utf8_encodable k = true ->
  encodable v = true ->
  encodable (JObject (<[k := v]> d)) = true.
Proof.
  intros Hd Hk Hv. apply encodable_object, map_Forall_insert_2; [done|].
  by apply encodable_object.
Qed.

Lemma encodable_snoc (ms : list json) (m : json) :
  encodable (JArray (ms ++ [m])) = encodable (JArray ms) && encodable m.
Proof.
  change (forallb encodable (ms ++ [m]) = forallb encodable ms && encodable m).
  rewrite forallb_app. simpl. by rewrite andb_true_r.
Qed.

(** The store with one more message can be encoded when the store and
    the message can. *)
Lemma encodable_appended (d : gmap string json) (ms : list json) (m : json) :
  encodable (JObject d) = true ->
  d !! "messages" = Some (JArray ms) ->
  encodable m = true ->
  encodable (JObject (<["messages" := JArray (ms ++ [m])]> d)) = true.
Proof.
  intros Hd Hms Hm. apply encodable_insert; [done|done|].
  rewrite encodable_snoc, Hm, andb_true_r. by apply (encodable_field d "messages").
Qed.

(** A message that cannot be encoded spoils every dict that holds it as
    its last message. *)
Lemma unencodable_appended (d : gmap string json) (ms : list json) (m : json) :
  encodable m = false ->
  encodable (JObject (<["messages" := JArray (ms ++ [m])]> d)) = false.
Proof.
  intros Hm. apply not_true_is_false. intros Hd.
  pose proof (encodable_field _ "messages" _ Hd (lookup_insert_eq _ _ _)) as Hl.
  rewrite encodable_snoc, Hm, andb_false_r in Hl. done.
Qed.

Lemma unencodable_ends_with (m v : json) :
  encodable m = false -> ends_with m v -> encodable v = false.
Proof.
  intros Hm (d & ms & -> & Hms). apply not_true_is_false. intros Hd.
  pose proof (encodable_field _ "messages" _ Hd Hms) as Hl.
  rewrite encodable_snoc, Hm, andb_false_r in Hl. done.
Qed.

Lemma store_ends_with (m : json) : ends_with m (store self [m]).
Proof. eexists _, []. split; [reflexivity|]. by simplify_map_eq. Qed.

Lemma encodable_store_snoc (ms : list json) (m : json) :
  encodable (store self ms) = true ->
  encodable m = true ->
  encodable (store self (ms ++ [m])) = true.
Proof.
  intros Hs Hm. destruct (store_fields ms) as (d & Hd & _ & _ & Hms).
  rewrite Hd in Hs.
  pose proof (encodable_appended d ms m Hs Hms Hm) as Ha.
  by injection Hd as <-.
Qed.

Lemma encodable_store_messages (ms : list json) :
  encodable (store self ms) = true -> Forall (fun r => encodable r = true) ms.
Proof.
  intros Hs. destruct (store_fields ms) as (d & Hd & _ & _ & Hms).
  rewrite Hd in Hs. pose proof (encodable_field d "messages" _ Hs Hms) as Hl.
  change (forallb encodable ms = true) in Hl.
  apply Forall_forall. intros r Hr.
  apply (proj1 (forallb_forall encodable ms) Hl). by apply list_elem_of_In.
Qed.

(** A store can be encoded when the channel name, the channel id and
    every message can. *)
Lemma encodable_store (ms : list json) :
  utf8_encodable (channel_name self) = true ->
  utf8_encodable (channel_id self) = true ->
  Forall (fun r => encodable r = true) ms ->
  encodable (store self ms) = true.
Proof.
  intros Hname Hid Hms. unfold store.
  apply encodable_insert; [|vm_compute; reflexivity|exact Hname].
  apply encodable_insert; [|vm_compute; reflexivity|exact Hid].
  apply encodable_insert; [|vm_compute; reflexivity|].
  - apply encodable_object, map_Forall_empty.
  - change (forallb encodable ms = true). apply forallb_forall.
    intros r Hr. apply (proj1 (Forall_forall _ ms) Hms). by apply list_elem_of_In.
Qed.

Lemma st_size_dumps (j : json) : encodable j = true -> 0 < st_size (json_dumps j).
Proof. intros Hj. eapply loads_nonempty, loads_dumps, Hj. Qed.

Lemma dumps_not_empty (j : json) : encodable j = true -> json_dumps j <> empty_text.
Proof.
  intros Hj Heq. pose proof (st_size_dumps j Hj) as Hpos.
  rewrite Heq, st_size_empty in Hpos. lia.
Qed.

(** The rendering of a store that can be encoded holds that store. *)
Lemma holds_store_dumps (ms : list json) :
  encodable (store self ms) = true ->
  holds_store (json_dumps (store self ms)) (channel_name self) (channel_id self) ms.
Proof.
  intros Hs. unfold holds_store. rewrite (loads_dumps _ Hs). unfold store.
  eexists. split; [reflexivity|].
  split; [by rewrite !dom_insert_L, dom_empty_L, (right_id_L ∅ (∪))|].
  repeat split; reflexivity.
Qed.

(** Unfolding of the monad's combinators and of the file operations. *)
Ltac unfold_m :=
  unfold try_except, bind, path_exists, path_st_size, load_file, lift, ret,
    throw, print, emit in *.

(** Rewriting with a fact [encodable v = b] where the goal has [v] in
    another, convertible form. *)
Ltac use_encodable He :=
  match goal with
  | |- context [encodable ?x] =>
      let Hx := fresh "Hx" in
      assert (Hx : encodable x = _) by exact He; rewrite Hx; clear Hx
  end.

Lemma file_states_app (a b : list effect) :
  file_states (a ++ b) = file_states a ++ file_states b.
Proof. apply omap_app. Qed.

(** *** The three outcomes of a write *)

Lemma dump_file_writable (data : json) (w : world text) :
  writable w = true ->
  encodable data = true ->
  dump_file data w =
    (Ok tt, World (Some (json_dumps data)) true (readable w),
     [Truncated; Written (json_dumps data)]).
Proof.
  intros Hw He. unfold dump_file, bind, open_w, dump. rewrite Hw, He. reflexivity.
Qed.

Lemma dump_file_unencodable (data : json) (w : world text) :
  writable w = true ->
  encodable data = false ->
  dump_file data w =
    (Raise UnicodeEncodeError, World (Some (json_partial data)) true (readable w),
     [Truncated; Written (json_partial data)]).
Proof.
  intros Hw He. unfold dump_file, bind, open_w, dump. rewrite Hw, He. reflexivity.
Qed.

Lemma dump_file_readonly (data : json) (w : world text) :
  writable w = false -> dump_file data w = (Raise OSError, w, []).
Proof.
  intros Hw. unfold dump_file, bind, open_w. rewrite Hw. reflexivity.
Qed.

(** *** The paths of [save_message_to_json] *)

(** The [try] block on a file that holds a store. *)
Lemma save_parsed (w : world text) (t : text) (d : gmap string json)
    (ms : list json) (m : json) :
  file w = Some t ->
  readable w = true ->
  json_loads t = Some (JObject d) ->
  d !! "messages" = Some (JArray ms) ->
  writable w = true ->
  encodable (JObject (<["messages" := JArray (ms ++ [m])]> d)) = true ->
  save_message_to_json self m w =
    let data := JObject (<["messages" := JArray (ms ++ [m])]> d) in
    (Ok tt, World (Some (json_dumps data)) true true,
     [Truncated; Written (json_dumps data); Stdout MessageSaved]).
Proof.
  intros Hf Hr Hl Hm Hw He.
  pose proof (loads_nonempty _ _ Hl) as Hpos.
  destruct w as [f wr rd]; simpl in *; subst f wr rd.
  unfold save_message_to_json. unfold_m. simpl.
  rewrite bool_decide_eq_true_2 by lia. simpl. rewrite Hl. simpl. rewrite Hm.
  simpl. unfold dump_file, bind, open_w, dump. simpl. use_encodable He.
  simpl. reflexivity.
Qed.

(** The file is missing or has length zero: the [else] branch. *)
Lemma save_blank (w : world text) (m : json) :
  (file w = None \/ exists t, file w = Some t /\ st_size t = 0) ->
  writable w = true ->
  encodable (store self [m]) = true ->
  save_message_to_json self m w =
    (Ok tt, World (Some (json_dumps (store self [m]))) true (readable w),
     [Truncated; Written (json_dumps (store self [m])); Stdout MessageSaved]).
Proof.
  intros Hf Hw He.
  destruct w as [f wr rd]; simpl in *; subst wr.
  unfold save_message_to_json. unfold_m. simpl.
  assert (Hlk : (<["channel_name" := JString (channel_name self)]>
                 (<["channel_id" := JString (channel_id self)]>
                 (<["messages" := JArray []]> ∅)) : gmap string json)
                !! "messages" = Some (JArray [])) by reflexivity.
  destruct Hf as [Hf | (t & Hf & Hz)]; subst f; simpl.
  - rewrite Hlk. unfold dump_file, bind, open_w, dump. simpl.
    use_encodable He. simpl. reflexivity.
  - rewrite Hz. simpl. rewrite Hlk. unfold dump_file, bind, open_w, dump. simpl.
    use_encodable He. simpl. reflexivity.
Qed.

(** The [try] block raises before it opens the file for writing: the
    handler writes the fresh store. *)
Lemma save_unparsed (w : world text) (t : text) (m : json) :
  file w = Some t ->
  0 < st_size t ->
  (readable w = false \/ ~ parses_as_store t) ->
  writable w = true ->
  encodable (store self [m]) = true ->
  exists e,
    save_message_to_json self m w =
      (Ok tt, World (Some (json_dumps (store self [m]))) true (readable w),
       [Stdout (ErrorSaving e); Truncated;
        Written (json_dumps (store self [m])); Stdout CreatedFresh]).
Proof.
  intros Hf Hpos Hbad Hw He.
  destruct w as [f wr rd]; simpl in *; subst f wr.
  unfold save_message_to_json. unfold_m. simpl.
  rewrite bool_decide_eq_true_2 by lia. simpl.
  assert (Hfresh : dump_file (store self [m]) (World (Some t) true rd)
            = (Ok tt, World (Some (json_dumps (store self [m]))) true rd,
               [Truncated; Written (json_dumps (store self [m]))])).
  { by apply dump_file_writable. }
  destruct rd; simpl.
  - destruct (json_loads t) as [j|] eqn:Hl; simpl.
    + destruct (append_message j m) as [data'|e] eqn:Ha.
      * exfalso. destruct Hbad as [Hrd | Hbad]; [discriminate Hrd|]. apply Hbad.
        unfold append_message in Ha.
        destruct j as [| | | | | |d]; try discriminate Ha.
        destruct (d !! "messages") as [[| | | | |ms|]|] eqn:Hm; try discriminate Ha.
        exists d, ms. split; [exact Hl|exact Hm].
      * exists e. simpl. rewrite Hfresh. reflexivity.
    + exists JSONDecodeError. rewrite Hfresh. reflexivity.
  - exists OSError. rewrite Hfresh. reflexivity.
Qed.

Lemma save_readonly (w : world text) (m : json) :
  writable w = false ->
  result_of (save_message_to_json self m w) = Ok tt
  /\ world_of (save_message_to_json self m w) = w
  /\ file_states (trace_of (save_message_to_json self m w)) = [].
Proof.
  intros Hw. destruct w as [f wr rd]; simpl in *; subst wr.
  unfold save_message_to_json. unfold_m. simpl.
  destruct f as [t|]; simpl; [|done].
  destruct (bool_decide (0 < st_size t)); simpl; [|done].
  destruct rd; simpl; [|done].
  destruct (json_loads t) as [j|]; simpl; [|done].
  destruct (append_message j m); simpl; done.
Qed.

Lemma parses_as_store_dec (t : text) : parses_as_store t \/ ~ parses_as_store t.
Proof.
  unfold parses_as_store.
  destruct (json_loads t) as [[| | | | | |d]|] eqn:Hl;
    try (right; intros (d' & ms & Hd & _); discriminate).
  destruct (d !! "messages") as [[| | | | |ms|]|] eqn:Hm;
    try (right; intros (d' & ms' & Hd & Hm'); congruence).
  left. by exists d, ms.
Qed.

Lemma append_message_ends_with (j data : json) (m : json) :
  append_message j m = Ok data -> ends_with m data.
Proof.
  unfold append_message. destruct j as [| | | | | |d]; try discriminate.
  destruct (d !! "messages") as [[| | | | |ms|]|] eqn:Hm; try discriminate.
  intros [= <-]. eexists _, ms. split; [reflexivity|apply lookup_insert_eq].
Qed.

Lemma save_each_cons (r : json) (rs : list json) (w w1 : world text) (t1 : list effect) :
  save_message_to_json self r w = (Ok tt, w1, t1) ->
  result_of (save_each self (r :: rs) w) = result_of (save_each self rs w1)
  /\ world_of (save_each self (r :: rs) w) = world_of (save_each self rs w1).
Proof.
  intros Hs. simpl. unfold bind. rewrite Hs.
  by destruct (save_each self rs w1) as [[r' w'] t'].
Qed.

Lemma save_each_parsed (rs : list json) :
  forall (w : world text) (t : text) (d : gmap string json) (ms : list json),
  file w = Some t ->
  readable w = true ->
  json_loads t = Some (JObject d) ->
  d !! "messages" = Some (JArray ms) ->
  writable w = true ->
  encodable (JObject d) = true ->
  Forall (fun r => encodable r = true) rs ->
  result_of (save_each self rs w) = Ok tt
  /\ exists t', file (world_of (save_each self rs w)) = Some t'
       /\ json_loads t' = Some (JObject (<["messages" := JArray (ms ++ rs)]> d)).
Proof.
  induction rs as [|r rs IH]; intros w t d ms Hf Hr Hl Hm Hw Hd Hrs.
  - split; [done|]. exists t. split; [done|].
    rewrite app_nil_r, insert_id; done.
  - apply Forall_cons in Hrs as [Her Hrs].
    pose proof (encodable_appended d ms r Hd Hm Her) as He1.
    pose proof (save_parsed w t d ms r Hf Hr Hl Hm Hw He1) as Hs. simpl in Hs.
    destruct (save_each_cons r rs _ _ _ Hs) as [-> ->].
    set (d1 := <["messages" := JArray (ms ++ [r])]> d) in *.
    destruct (IH (World (Some (json_dumps (JObject d1))) true true)
                 (json_dumps (JObject d1)) d1 (ms ++ [r])) as (Hres & t' & Hf' & Hl');
      [done | done | by apply loads_dumps | apply lookup_insert_eq | done | done
      | done |].
    split; [done|]. exists t'. split; [done|].
    rewrite Hl'. unfold d1. by rewrite insert_insert_eq, <- app_assoc.
Qed.


(** [save_message_to_json] is the write of the prepared value, with the
    fallback write as the handler of whatever is raised. *)
Lemma save_unfold (w : world text) (m : json) :
  save_message_to_json self m w =
    try_except
      (bind (lift (prepared self m w))
         (fun data' => bind (dump_file data') (fun _ => print MessageSaved)))
      (fun _ => true)
      (fun e =>
         bind (print (ErrorSaving e))
           (fun _ =>
              try_except
                (bind (dump_file (store self [m])) (fun _ => print CreatedFresh))
                (fun _ => true)
                (fun fallback_error => print (CriticalError fallback_error)))) w.
Proof.
  assert (Hlk : (<["channel_name" := JString (channel_name self)]>
                 (<["channel_id" := JString (channel_id self)]>
                 (<["messages" := JArray []]> ∅)) : gmap string json)
                !! "messages" = Some (JArray [])) by reflexivity.
  destruct w as [f wr rd].
  unfold save_message_to_json, prepared, append_message, store. unfold_m.
  unfold dump_file, open_w, dump, bind. simpl. rewrite ?Hlk.
  destruct f as [t|]; simpl.
  - destruct (decide (0 < st_size t)) as [Hpos|Hz].
    + rewrite !bool_decide_eq_true_2 by exact Hpos. simpl.
      destruct rd; simpl;
        [destruct (json_loads t) as [[| | | | | |d]|];
           [..|destruct (d !! "messages") as [[| | | | |ms|]|]|]|];
        simpl; destruct wr; simpl;
        repeat (match goal with
                | |- context [encodable ?x] => destruct (encodable x)
                end; simpl);
        reflexivity.
    + rewrite !bool_decide_eq_false_2 by exact Hz. simpl. rewrite ?Hlk. simpl.
      destruct wr; simpl;
        repeat (match goal with
                | |- context [encodable ?x] => destruct (encodable x)
                end; simpl);
        reflexivity.
  - rewrite ?Hlk. simpl. destruct wr; simpl;
      repeat (match goal with
              | |- context [encodable ?x] => destruct (encodable x)
              end; simpl);
      reflexivity.
Qed.

Lemma prepared_ends_with (w : world text) (m v : json) :
  prepared self m w = Ok v -> ends_with m v.
Proof.
  unfold prepared.
  assert (Hfresh : forall v', append_message (store self []) m = Ok v' -> ends_with m v').
  { intros v'. apply append_message_ends_with. }
  destruct (file w) as [t|]; [|apply Hfresh].
  destruct (bool_decide (0 < st_size t)); [|apply Hfresh].
  destruct (readable w); [|discriminate].
  destruct (json_loads t) as [j|]; [|discriminate].
  apply append_message_ends_with.
Qed.


Lemma prepared_blank (w : world text) (m : json) :
  (file w = None \/ exists t, file w = Some t /\ st_size t = 0) ->
  prepared self m w = Ok (store self [m]).
Proof.
  intros [Hf | (t & Hf & Hz)]; unfold prepared; rewrite Hf; [reflexivity|].
  rewrite bool_decide_eq_false_2 by lia. reflexivity.
Qed.

Lemma prepared_unparsed (w : world text) (t : text) (m : json) :
  file w = Some t ->
  0 < st_size t ->
  (readable w = false \/ ~ parses_as_store t) ->
  exists e, prepared self m w = Raise e.
Proof.
  intros Hf Hpos Hbad. unfold prepared.
  rewrite Hf, bool_decide_eq_true_2 by lia.
  destruct (readable w); [|by eexists].
  destruct Hbad as [Hrd | Hbad]; [discriminate Hrd|].
  destruct (json_loads t) as [j|] eqn:Hl; [|by eexists].
  destruct (append_message j m) as [v|e] eqn:Ha; [|by eexists].
  exfalso. apply Hbad. unfold append_message in Ha.
  destruct j as [| | | | | |d]; try discriminate Ha.
  destruct (d !! "messages") as [[| | | | |ms|]|] eqn:Hm; try discriminate Ha.
  exists d, ms. split; [exact Hl|exact Hm].
Qed.

(** *** The outcomes of [save_message_to_json] *)

(** The file cannot be opened for writing. *)
Lemma save_closed (w : world text) (m : json) :
  writable w = false ->
  exists e,
    save_message_to_json self m w
      = (Ok tt, w, [Stdout (ErrorSaving e); Stdout (CriticalError OSError)]).
Proof.
  intros Hw. rewrite save_unfold. unfold try_except, bind, lift, print, emit.
  destruct (prepared self m w) as [v|e]; cbv beta iota zeta.
  - rewrite (dump_file_readonly v w Hw). cbv beta iota zeta.
    rewrite (dump_file_readonly _ w Hw). eexists; reflexivity.
  - rewrite (dump_file_readonly _ w Hw). eexists; reflexivity.
Qed.

(** The prepared value is written. *)
Lemma save_written (w : world text) (m v : json) :
  writable w = true ->
  prepared self m w = Ok v ->
  encodable v = true ->
  save_message_to_json self m w =
    (Ok tt, World (Some (json_dumps v)) true (readable w),
     [Truncated; Written (json_dumps v); Stdout MessageSaved]).
Proof.
  intros Hw Hp Hv. rewrite save_unfold. unfold try_except, bind, lift, print, emit.
  rewrite Hp. cbv beta iota zeta. rewrite (dump_file_writable v w Hw Hv).
  reflexivity.
Qed.

(** The fresh store written by the handler, from any world whose file can
    be opened. *)
Lemma fallback_write (w : world text) (m : json) :
  writable w = true ->
  try_except
    (bind (dump_file (store self [m])) (fun _ => print CreatedFresh))
    (fun _ => true)
    (fun fallback_error => print (CriticalError fallback_error)) w
  = (Ok tt, World (Some (write_result (store self [m]))) true (readable w),
     [Truncated; Written (write_result (store self [m]));
      Stdout (if encodable (store self [m]) then CreatedFresh
              else CriticalError UnicodeEncodeError)]).
Proof.
  intros Hw. unfold try_except, bind, print, emit, write_result.
  destruct (encodable (store self [m])) eqn:Es.
  - rewrite (dump_file_writable _ w Hw Es). reflexivity.
  - rewrite (dump_file_unencodable _ w Hw Es). reflexivity.
Qed.

(** The write of the prepared value fails part of the way. *)
Lemma save_fallback_after_write (w : world text) (m v : json) :
  writable w = true ->
  prepared self m w = Ok v ->
  encodable v = false ->
  save_message_to_json self m w =
    fallback_outcome self m UnicodeEncodeError
      [Truncated; Written (json_partial v)] (readable w).
Proof.
  intros Hw Hp Hv. rewrite save_unfold.
  unfold try_except at 1. unfold bind at 1 2. unfold lift.
  rewrite Hp. cbv beta iota zeta. rewrite (dump_file_unencodable v w Hw Hv).
  cbv beta iota zeta. unfold bind at 1. unfold print at 1. unfold emit at 1.
  cbv beta iota zeta.
  rewrite (fallback_write (World (Some (json_partial v)) true (readable w)) m eq_refl).
  reflexivity.
Qed.

(** The [try] block raises before it writes. *)
Lemma save_fallback (w : world text) (m : json) (e : exn) :
  writable w = true ->
  prepared self m w = Raise e ->
  save_message_to_json self m w = fallback_outcome self m e [] (readable w).
Proof.
  intros Hw Hp. rewrite save_unfold.
  unfold try_except at 1. unfold bind at 1. unfold lift.
  rewrite Hp. cbv beta iota zeta. unfold bind at 1. unfold print at 1.
  unfold emit at 1. cbv beta iota zeta.
  rewrite (fallback_write w m Hw). reflexivity.
Qed.

(** C1 (as the code has it): a backing file that exists and does not
    parse as a store is replaced, when the record [m] is appended, by a
    fresh store whose messages are exactly [[m]] and whose channel name
    and id are the listener's own, provided that the file can be opened
    for writing and that the record, the channel name and the channel id
    can be encoded; the failure is caught and reported on the console,
    and nothing of the former content is kept. *)
Theorem corrupt_file_recovery (w : world text) (t : text) (m : json) :
  file w = Some t ->
  ~ parses_as_store t ->
  writable w = true ->
  utf8_encodable (channel_name self) = true ->
  utf8_encodable (channel_id self) = true ->
  encodable m = true ->
  let o := save_message_to_json self m w in
  result_of o = Ok tt
  /\ (exists t', file (world_of o) = Some t'
        /\ holds_store t' (channel_name self) (channel_id self) [m])
  /\ (0 < st_size t ->
      exists e, trace_of o =
        [Stdout (ErrorSaving e); Truncated;
         Written (json_dumps (store self [m])); Stdout CreatedFresh]).
Proof.
  intros Hf Hbad Hw Hname Hid Hm o. subst o.
  assert (Hs : encodable (store self [m]) = true).
  { apply encodable_store; [exact Hname|exact Hid|]. by constructor. }
  pose proof (holds_store_dumps [m] Hs) as Hholds.
  destruct (decide (st_size t = 0)) as [Hz|Hnz].
  - rewrite (save_blank w m (or_intror (ex_intro _ t (conj Hf Hz))) Hw Hs).
    split; [reflexivity|]. split; [eexists; split; [reflexivity|exact Hholds]|].
    intros Hpos. lia.
  - destruct (save_unparsed w t m Hf ltac:(lia) (or_intror Hbad) Hw Hs) as [e ->].
    split; [reflexivity|]. split; [eexists; split; [reflexivity|exact Hholds]|].
    intros _. exists e. reflexivity.
Qed.

(** C5 (as the code has it): on a backing file that can be read and
    written and holds a store which can itself be encoded, appending a
    record that can be encoded keeps every field of the store other than
    ["messages"] (so [channel_name] and [channel_id]) and every prior
    message, in order, and puts the new record last; such records
    appended one call after the other are found in the order of the
    calls. *)
Theorem append_preserves_order (w : world text) (t : text) (d : gmap string json)
    (ms : list json) :
  file w = Some t ->
  readable w = true ->
  json_loads t = Some (JObject d) ->
  d !! "messages" = Some (JArray ms) ->
  writable w = true ->
  encodable (JObject d) = true ->
  (forall m, encodable m = true ->
    exists t' d',
      result_of (save_message_to_json self m w) = Ok tt
      /\ file (world_of (save_message_to_json self m w)) = Some t'
      /\ json_loads t' = Some (JObject d')
      /\ d' !! "messages" = Some (JArray (ms ++ [m]))
      /\ d' !! "channel_name" = d !! "channel_name"
      /\ d' !! "channel_id" = d !! "channel_id"
      /\ (forall k, k <> "messages" -> d' !! k = d !! k))
  /\ (forall rs, Forall (fun r => encodable r = true) rs ->
    exists t' d',
      result_of (save_each self rs w) = Ok tt
      /\ file (world_of (save_each self rs w)) = Some t'
      /\ json_loads t' = Some (JObject d')
      /\ d' !! "messages" = Some (JArray (ms ++ rs))
      /\ (forall k, k <> "messages" -> d' !! k = d !! k)).
Proof.
  intros Hf Hr Hl Hm Hw Hd. split.
  - intros m Hem.
    pose proof (encodable_appended d ms m Hd Hm Hem) as He.
    rewrite (save_parsed w t d ms m Hf Hr Hl Hm Hw He).
    eexists _, _. split; [reflexivity|]. split; [reflexivity|].
    split; [apply loads_dumps, He|].
    split; [apply lookup_insert_eq|].
    split; [by rewrite lookup_insert_ne|].
    split; [by rewrite lookup_insert_ne|].
    intros k Hk. by rewrite lookup_insert_ne.
  - intros rs Hrs.
    destruct (save_each_parsed rs w t d ms Hf Hr Hl Hm Hw Hd Hrs)
      as (Hres & t' & Hf' & Hl').
    eexists _, _. split; [exact Hres|]. split; [exact Hf'|]. split; [exact Hl'|].
    split; [apply lookup_insert_eq|].
    intros k Hk. by rewrite lookup_insert_ne.
Qed.

(** Initialisation where there is no file and one can be created. *)
Lemma initialize_creates (w : world text) :
  file w = None ->
  writable w = true ->
  encodable (store self []) = true ->
  initialize_messages_file self w =
    (Ok tt, World (Some (json_dumps (store self []))) true (readable w),
     [Truncated; Written (json_dumps (store self [])); Stdout CreatedNewFile]).
Proof.
  intros Hf Hw Hs.
  pose proof (dump_file_writable (store self []) w Hw Hs) as Hd.
  unfold initialize_messages_file, path_exists, bind, print, emit, ret.
  cbv beta iota zeta. rewrite Hf.
  rewrite (bool_decide_eq_false_2 (is_Some (@None text)))
    by (intros [? Hx]; discriminate Hx).
  cbn [negb]. cbv beta iota zeta. rewrite Hd. reflexivity.
Qed.



(** *** Profile lookup *)

(** [get_user_info] makes one lookup call and touches nothing else. *)
Lemma get_user_info_frame (user_id : json) (w : world text) :
  exists r, get_user_info self user_id w = (r, w, [UsersInfo user_id]).
Proof.
  unfold get_user_info. unfold_m. simpl.
  destruct (web_client_users_info self user_id) as [response|e]; simpl.
  - repeat (match goal with
            | |- context [match ?x with Ok _ => _ | Raise _ => _ end] =>
                destruct x as [?|[]]; simpl
            end); by eexists.
  - destruct e; simpl; by eexists.
Qed.

(** C4 (as the code has it): when the lookup raises the platform's API
    error, [get_user_info] does not raise and returns the placeholder
    profile: the given id, the name "Unknown", and the empty string for
    [real_name], [display_name] and [email]. *)
Theorem lookup_api_error_absorbed (user_id : json) (w : world text) :
  web_client_users_info self user_id = Raise SlackApiError ->
  get_user_info self user_id w = (Ok (placeholder user_id), w, [UsersInfo user_id])
  /\ placeholder user_id !! "id" = Some user_id
  /\ placeholder user_id !! "name" = Some (JString "Unknown")
  /\ placeholder user_id !! "real_name" = Some (JString "")
  /\ placeholder user_id !! "display_name" = Some (JString "")
  /\ placeholder user_id !! "email" = Some (JString "").
Proof.
  intros Herr. split.
  - unfold get_user_info. unfold_m. simpl. by rewrite Herr.
  - unfold placeholder. by simplify_map_eq.
Qed.

(** C7: a lookup response whose user has an id and a name, and whose
    [profile], when present, is an object, yields a profile without error;
    each of [real_name], [display_name] and [email] that the response
    lacks is present in the profile with the empty string as its value. *)
Theorem missing_fields_default (user_id : json) (w : world text)
    (response user : gmap string json) (id name : json) :
  web_client_users_info self user_id = Ok response ->
  response !! "user" = Some (JObject user) ->
  user !! "id" = Some id ->
  user !! "name" = Some name ->
  (user !! "profile" = None \/ exists p, user !! "profile" = Some (JObject p)) ->
  exists info,
    result_of (get_user_info self user_id w) = Ok info
    /\ info !! "id" = Some id
    /\ info !! "name" = Some name
    /\ (user !! "real_name" = None -> info !! "real_name" = Some (JString ""))
    /\ (profile_field user "display_name" = None ->
        info !! "display_name" = Some (JString ""))
    /\ (profile_field user "email" = None ->
        info !! "email" = Some (JString "")).
Proof.
  intros Hresp Huser Hid Hname Hprofile.
  unfold get_user_info, response_getitem, profile_field. unfold_m.
  rewrite Hresp. cbv beta iota zeta. unfold dict_get. rewrite Huser. simpl default.
  unfold subscript, method_get, dict_subscript, dict_get_default.
  rewrite Hid, Hname. cbv beta iota zeta.
  destruct Hprofile as [Hp | [p Hp]]; rewrite Hp; simpl;
    eexists; (split; [reflexivity|]);
    (split; [by simplify_map_eq|]); (split; [by simplify_map_eq|]);
    repeat split; intros ->; by simplify_map_eq.
Qed.

(** *** Effects of a computation *)

Section EmitsOnly.

Variable P : effect (text:=text) -> Prop.

Lemma emits_only_ret {A} (a : A) : emits_only P (ret a).
Proof. intros w. constructor. Qed.

Lemma emits_only_lift {A} (r : result A) : emits_only P (lift r).
Proof. intros w. constructor. Qed.

Lemma emits_only_emit (e : effect) : P e -> emits_only P (emit e).
Proof. intros He w. by repeat constructor. Qed.

Lemma emits_only_bind {A B} (m : M A) (k : A -> M B) :
  emits_only P m -> (forall a, emits_only P (k a)) -> emits_only P (bind m k).
Proof.
  intros Hm Hk w. specialize (Hm w). unfold bind, trace_of in *.
  destruct (m w) as [[[a|e] w1] t1]; simpl in *; [|done].
  specialize (Hk a w1). unfold trace_of in Hk.
  destruct (k a w1) as [[r w2] t2]; simpl in *.
  by apply Forall_app.
Qed.

Lemma emits_only_try_except {A} (m : M A) (c : exn -> bool) (h : exn -> M A) :
  emits_only P m -> (forall e, emits_only P (h e)) -> emits_only P (try_except m c h).
Proof.
  intros Hm Hh w. specialize (Hm w). unfold try_except, trace_of in *.
  destruct (m w) as [[[a|e] w1] t1]; simpl in *; [done|].
  destruct (c e); [|done].
  specialize (Hh e w1). unfold trace_of in Hh.
  destruct (h e w1) as [[r w2] t2]; simpl in *.
  by apply Forall_app.
Qed.

Lemma emits_only_path_exists : emits_only P path_exists.
Proof. intros w. constructor. Qed.

Lemma emits_only_path_st_size : emits_only P path_st_size.
Proof. intros w. unfold path_st_size. destruct (file w); constructor. Qed.

Lemma emits_only_load_file : emits_only P load_file.
Proof.
  intros w. unfold load_file.
  destruct (file w) as [t|]; [destruct (readable w); [destruct (json_loads t)|]|];
    constructor.
Qed.

Lemma emits_only_dump_file (data : json) :
  P Truncated -> (forall t, P (Written t)) -> emits_only P (dump_file data).
Proof.
  intros HT HW w. unfold dump_file, bind, open_w, dump, trace_of.
  destruct (writable w); cbv beta iota zeta; [|constructor].
  destruct (encodable data); cbn [app]; repeat constructor; auto.
Qed.

End EmitsOnly.

Ltac emits_step :=
  first
    [ apply emits_only_ret
    | apply emits_only_lift
    | apply emits_only_path_exists
    | apply emits_only_path_st_size
    | apply emits_only_load_file
    | apply emits_only_dump_file; [done | done]
    | apply emits_only_emit; done
    | apply emits_only_bind; [|intros ?]
    | apply emits_only_try_except; [|intros ?] ].

Lemma save_message_no_ack (m : json) :
  emits_only (text:=text) (fun e => is_Ack e = false) (save_message_to_json self m).
Proof.
  unfold save_message_to_json, print.
  repeat (emits_step || match goal with
                        | |- emits_only _ (if ?b then _ else _) => destruct b
                        end).
Qed.

Lemma get_user_info_no_ack (user_id : json) :
  emits_only (text:=text) (fun e => is_Ack e = false) (get_user_info self user_id).
Proof.
  intros w. destruct (get_user_info_frame user_id w) as [r ->].
  by repeat constructor.
Qed.

Lemma print_message_no_ack (event : gmap string json) :
  emits_only (text:=text) (fun e => is_Ack e = false) (print_message self event).
Proof.
  unfold print_message, format_timestamp, print.
  repeat (first [ apply get_user_info_no_ack
                | apply save_message_no_ack
                | emits_step ]).
Qed.

(** C8: for every envelope and every world, the acknowledgment carrying
    the envelope's id is the first effect of the handler; the console
    lines, the lookup call and the file writes all come after it, and no
    other acknowledgment is sent, whether the event is recorded, skipped or
    the handler raises. *)
Theorem ack_comes_first (req : SocketModeRequest) (w : world text) :
  exists rest,
    trace_of (handle_message_events self req w) = Ack (envelope_id req) :: rest
    /\ Forall (fun e => is_Ack e = false) rest.
Proof.
  unfold handle_message_events.
  set (k := fun _ : unit => bind (print _) _).
  assert (Hk : emits_only (fun e => is_Ack e = false) (k tt)).
  { unfold k, print.
    repeat (first [ apply print_message_no_ack
                  | emits_step
                  | match goal with
                    | |- emits_only _ (if ?b then _ else _) => destruct b
                    end ]). }
  specialize (Hk w). unfold bind at 1. unfold emit at 1. unfold trace_of in *.
  destruct (k tt w) as [[r w2] t2]. simpl in *. by exists t2.
Qed.

(** *** The event filter and the handler *)

Lemma accept_true_iff (event : gmap string json) :
  accept self event = Ok true <->
    event !! "type" = Some (JString "message")
    /\ event !! "channel" = Some (JString (channel_id self))
    /\ is_Some (event !! "user")
    /\ (event !! "subtype" = None \/ event !! "subtype" = Some JNull).
Proof.
  unfold accept, dict_subscript, dict_get, dict_in, eq_str, is_None.
  split.
  - destruct (event !! "type") as [ty|]; [|done]. intros [= Hacc].
    rewrite !andb_true_iff in Hacc. destruct Hacc as [[[Hty Hch] Hu] Hsub].
    destruct ty; try done. apply bool_decide_eq_true_1 in Hty as ->.
    destruct (event !! "channel") as [[]|]; try done.
    apply bool_decide_eq_true_1 in Hch as ->.
    apply bool_decide_eq_true_1 in Hu.
    repeat split; try done.
    destruct (event !! "subtype") as [[]|]; try done; auto.
  - intros (-> & -> & Hu & Hsub). simpl.
    rewrite !bool_decide_eq_true_2 by done. simpl.
    by destruct Hsub as [-> | ->].
Qed.

(** An accepted event goes to [print_message], after three console lines. *)
Lemma handle_accepted (req : SocketModeRequest) (event : gmap string json)
    (user : json) (w : world text) :
  req_type req = "events_api" ->
  payload req !! "event" = Some (JObject event) ->
  accept self event = Ok true ->
  event !! "user" = Some user ->
  handle_message_events self req w =
    (result_of (print_message self event w),
     world_of (print_message self event w),
     [Ack (envelope_id req);
      Stdout (ReceivedEventType (req_type req));
      Stdout (EventDetails (dict_get_default event "type" (JString "unknown"))
                          (dict_get_default event "channel" (JString "unknown")));
      Stdout (ProcessingFrom user)] ++ trace_of (print_message self event w)).
Proof.
  intros Hty Hev Hacc Hu.
  unfold handle_message_events. unfold_m.
  rewrite Hty. simpl. unfold dict_subscript at 1. rewrite Hev. simpl.
  rewrite Hacc. simpl. unfold dict_subscript at 1. rewrite Hu. simpl.
  unfold result_of, world_of, trace_of.
  by destruct (print_message self event w) as [[r w'] t].
Qed.

(** C2 (as the code has it): the filter answers true exactly for an
    event whose type is "message", whose channel is the tracked channel
    id, which has a user field and whose subtype is absent or null.  The
    handler looks up a profile or writes the file only for an events-API
    envelope whose event passes the filter, and hands every such event to
    [print_message]. *)
Theorem filter_accepts_iff :
  (forall event : gmap string json,
    accept self event = Ok true <->
      event !! "type" = Some (JString "message")
      /\ event !! "channel" = Some (JString (channel_id self))
      /\ is_Some (event !! "user")
      /\ (event !! "subtype" = None \/ event !! "subtype" = Some JNull))
  /\ (forall (req : SocketModeRequest) (w : world text),
      existsb is_processing (trace_of (handle_message_events self req w)) = true ->
      req_type req = "events_api"
      /\ exists event, payload req !! "event" = Some (JObject event)
                       /\ accept self event = Ok true)
  /\ (forall (req : SocketModeRequest) (w : world text) (event : gmap string json),
      req_type req = "events_api" ->
      payload req !! "event" = Some (JObject event) ->
      accept self event = Ok true ->
      result_of (handle_message_events self req w) = result_of (print_message self event w)
      /\ world_of (handle_message_events self req w) = world_of (print_message self event w)
      /\ exists pre, trace_of (handle_message_events self req w)
                      = pre ++ trace_of (print_message self event w)
                     /\ existsb is_processing pre = false).
Proof.
  split; [apply accept_true_iff|]. split.
  - intros req w. unfold handle_message_events. unfold_m.
    destruct (bool_decide (req_type req = "events_api")) eqn:Hty; simpl.
    + apply bool_decide_eq_true_1 in Hty.
      unfold dict_subscript at 1.
      destruct (payload req !! "event") as [[| | | | | |event]|] eqn:Hev;
        simpl; try discriminate.
      destruct (accept self event) as [[|]|e] eqn:Hacc; simpl; try discriminate.
      intros _. split; [done|]. by exists event.
    + destruct (bool_decide (req_type req = "interactive")); simpl; discriminate.
  - intros req w event Hty Hev Hacc.
    destruct (proj1 (accept_true_iff event) Hacc) as (_ & _ & [user Hu] & _).
    rewrite (handle_accepted req event user w Hty Hev Hacc Hu).
    repeat split. by eexists.
Qed.









(** Without a [ts] or a [text] field, building the record raises before
    anything is written. *)
Lemma print_message_missing_field (event : gmap string json) (w : world text) :
  (event !! "ts" = None \/ event !! "text" = None) ->
  exists e t, print_message self event w = (Raise e, w, t) /\ file_states t = [].
Proof.
  intros Hmiss.
  unfold print_message, format_timestamp. unfold_m.
  destruct (dict_subscript event "user") as [user|e0] eqn:Huser;
    cbv beta iota; [|by eexists _, _].
  destruct (get_user_info_frame user w) as [r ->].
  repeat (cbv beta iota;
          match goal with
          | |- context [match ?x with Ok _ => _ | Raise _ => _ end] =>
              destruct x eqn:?
          end);
    try (by eexists _, _).
  exfalso. unfold dict_subscript in *.
  destruct Hmiss as [Hmiss | Hmiss]; rewrite Hmiss in *; discriminate.
Qed.

(** C10: an event that passes the filter and has no [ts] field, or no
    [text] field, makes the handler raise; the backing file is neither
    written nor changed, so no record with an empty field is stored. *)
Theorem missing_text_or_ts_raises (req : SocketModeRequest)
    (event : gmap string json) (w : world text) :
  req_type req = "events_api" ->
  payload req !! "event" = Some (JObject event) ->
  accept self event = Ok true ->
  (event !! "ts" = None \/ event !! "text" = None) ->
  raises (result_of (handle_message_events self req w))
  /\ world_of (handle_message_events self req w) = w
  /\ file_states (trace_of (handle_message_events self req w)) = [].
Proof.
  intros Hty Hev Hacc Hmiss.
  destruct (proj1 (accept_true_iff event) Hacc) as (_ & _ & [user Hu] & _).
  rewrite (handle_accepted req event user w Hty Hev Hacc Hu).
  destruct (print_message_missing_field event w Hmiss) as (e & t & -> & Ht).
  unfold result_of, world_of, trace_of. simpl. by rewrite Ht.
Qed.

End Properties.

(** ** The properties on concrete runs *)

Section Runs.

Import Sample.

Lemma listener_name_encodable : utf8_encodable (channel_name listener) = true.
Proof. vm_compute. reflexivity. Qed.

Lemma listener_id_encodable : utf8_encodable (channel_id listener) = true.
Proof. vm_compute. reflexivity. Qed.

Lemma garbage_not_store (s : string) : ~ parses_as_store (Garbage s).
Proof. intros (d & ms & Hl & _). discriminate Hl. Qed.

(** C1 (as stated): the backing file holds text that is not a store and
    can be written, and the record carries a lone surrogate.  Both dumps
    fail part of the way: the file is left with the beginning of a store,
    which does not load, and not with the fresh store of the one
    record. *)
Lemma corrupt_file_not_recovered :
  file corrupt = Some (Garbage "{not json")
  /\ ~ parses_as_store (Garbage "{not json")
  /\ writable corrupt = true
  /\ readable corrupt = true
  /\ file (world_of (save_message_to_json listener surrogate_record corrupt))
     = Some (Beginning (store listener [surrogate_record]))
  /\ json_loads (Beginning (store listener [surrogate_record])) = None
  /\ ~ (exists t',
         file (world_of (save_message_to_json listener surrogate_record corrupt))
           = Some t'
         /\ holds_store t' (channel_name listener) (channel_id listener)
              [surrogate_record]).
Proof.
  assert (Hf : file (world_of (save_message_to_json listener surrogate_record corrupt))
               = Some (Beginning (store listener [surrogate_record])))
    by (vm_compute; reflexivity).
  split; [reflexivity|]. split; [apply garbage_not_store|].
  split; [reflexivity|]. split; [reflexivity|]. split; [exact Hf|].
  split; [reflexivity|].
  intros (t' & Hf' & d & Hl & _). rewrite Hf in Hf'.
  injection Hf' as <-. discriminate Hl.
Qed.

(** A file that holds text which is not JSON: the append leaves the fresh
    store with the one record. *)
Lemma corrupt_file_recovery_run :
  file corrupt = Some (Garbage "{not json")
  /\ ~ parses_as_store (Garbage "{not json")
  /\ writable corrupt = true
  /\ utf8_encodable (channel_name listener) = true
  /\ utf8_encodable (channel_id listener) = true
  /\ encodable (record "T1") = true
  /\ (exists t',
        file (world_of (save_message_to_json listener (record "T1") corrupt))
          = Some t'
        /\ holds_store t' "general" "C1" [record "T1"])
  /\ exists e, trace_of (save_message_to_json listener (record "T1") corrupt)
     = [Stdout (ErrorSaving e); Truncated;
        Written (Rendered (store listener [record "T1"])); Stdout CreatedFresh].
Proof.
  assert (Hm : encodable (record "T1") = true) by (vm_compute; reflexivity).
  destruct (corrupt_file_recovery listener corrupt (Garbage "{not json")
              (record "T1") eq_refl (garbage_not_store "{not json") eq_refl
              listener_name_encodable listener_id_encodable Hm)
    as (_ & Hstore & Htrace).
  split; [reflexivity|]. split; [apply garbage_not_store|].
  split; [reflexivity|]. split; [exact listener_name_encodable|].
  split; [exact listener_id_encodable|]. split; [exact Hm|].
  split; [exact Hstore|].
  apply Htrace. simpl. lia.
Defined.

(** C5 (as stated): the backing file holds a store with one message and
    can be read and written, and the record carries a lone surrogate.
    The dump of the extended store fails part of the way, and so does the
    dump of the fresh store in the handler: the file no longer loads, and
    the channel name, the channel id and the prior message are gone from
    it. *)
Lemma append_loses_prior_messages :
  file Scenario.one_message = Some (Rendered (store listener [record "T0"]))
  /\ json_loads (Rendered (store listener [record "T0"]))
     = Some (store listener [record "T0"])
  /\ writable Scenario.one_message = true
  /\ readable Scenario.one_message = true
  /\ file (world_of (save_message_to_json listener surrogate_record
                       Scenario.one_message))
     = Some (Beginning (store listener [surrogate_record]))
  /\ json_loads (Beginning (store listener [surrogate_record])) = None
  /\ ~ (exists t' d',
         file (world_of (save_message_to_json listener surrogate_record
                           Scenario.one_message)) = Some t'
         /\ json_loads t' = Some (JObject d')
         /\ d' !! "messages" = Some (JArray [record "T0"; surrogate_record])).
Proof.
  assert (Hf : file (world_of (save_message_to_json listener surrogate_record
                                 Scenario.one_message))
               = Some (Beginning (store listener [surrogate_record])))
    by (vm_compute; reflexivity).
  split; [reflexivity|]. split; [reflexivity|].
  split; [reflexivity|]. split; [reflexivity|]. split; [exact Hf|].
  split; [reflexivity|].
  intros (t' & d' & Hf' & Hl & _). rewrite Hf in Hf'.
  injection Hf' as <-. discriminate Hl.
Qed.

(** Three records appended to the empty store, one call after the other. *)
Lemma append_preserves_order_run :
  file empty_store = Some (Rendered (store listener []))
  /\ readable empty_store = true
  /\ writable empty_store = true
  /\ encodable (store listener []) = true
  /\ Forall (fun r => encodable r = true) [record "T1"; record "T2"; record "T3"]
  /\ exists t' d',
      file (world_of (save_each listener [record "T1"; record "T2"; record "T3"]
                                empty_store)) = Some t'
      /\ json_loads t' = Some (JObject d')
      /\ d' !! "messages" = Some (JArray [record "T1"; record "T2"; record "T3"])
      /\ d' !! "channel_name" = Some (JString "general")
      /\ d' !! "channel_id" = Some (JString "C1").
Proof.
  assert (Hs : encodable (store listener []) = true) by (vm_compute; reflexivity).
  assert (Hrs : Forall (fun r => encodable r = true)
                  [record "T1"; record "T2"; record "T3"]).
  { repeat (apply Forall_cons_2; [vm_compute; reflexivity|]). apply Forall_nil_2. }
  split; [reflexivity|]. split; [reflexivity|]. split; [reflexivity|].
  split; [exact Hs|]. split; [exact Hrs|].
  destruct (append_preserves_order listener empty_store
              (Rendered (store listener []))
              (<["channel_name" := JString "general"]>
               (<["channel_id" := JString "C1"]>
               (<["messages" := JArray []]> ∅))) [])
    as [_ Hall];
    [reflexivity | reflexivity | reflexivity | reflexivity | reflexivity
    | exact Hs |].
  destruct (Hall [record "T1"; record "T2"; record "T3"] Hrs)
    as (t' & d' & _ & Hf & Hl & Hm & Hframe).
  exists t', d'.
  split; [exact Hf|]. split; [exact Hl|]. split; [exact Hm|].
  split; rewrite Hframe by discriminate; reflexivity.
Defined.




(** C4 (as stated): a lookup that fails with an error other than the API
    error is not absorbed; the exception reaches the caller. *)
Lemma lookup_network_error_escapes :
  web_client_users_info offline (JString "U1") = Raise (OtherException "URLError")
  /\ result_of (get_user_info offline (JString "U1") no_file)
     = Raise (OtherException "URLError")
  /\ result_of (get_user_info offline (JString "U1") no_file)
     <> Ok (placeholder (JString "U1")).
Proof. repeat split. discriminate. Qed.

Lemma lookup_api_error_absorbed_run :
  web_client_users_info denied (JString "U1") = Raise SlackApiError
  /\ result_of (get_user_info denied (JString "U1") no_file)
     = Ok (placeholder (JString "U1")).
Proof.
  split; [reflexivity|].
  destruct (lookup_api_error_absorbed denied (JString "U1") no_file eq_refl)
    as [Ho _].
  by rewrite Ho.
Defined.

(** The response for bob has no profile: [display_name] and [email] are
    the empty string. *)
Lemma missing_fields_default_run :
  exists info,
    result_of (get_user_info listener (JString "U1") no_file) = Ok info
    /\ info !! "name" = Some (JString "bob")
    /\ info !! "display_name" = Some (JString "")
    /\ info !! "email" = Some (JString "").
Proof.
  destruct (missing_fields_default listener (JString "U1") no_file
              (bob (JString "U1"))
              (<["id" := JString "U1"]>
               (<["name" := JString "bob"]>
               (<["real_name" := JString "Bob Smith"]> ∅)))
              (JString "U1") (JString "bob"))
    as (info & Hr & _ & Hname & _ & Hdisplay & Hemail);
    [reflexivity | reflexivity | reflexivity | reflexivity | by left |].
  exists info. repeat split; [done | done | by apply Hdisplay | by apply Hemail].
Defined.

(** C2 (as stated): the event carries a subtype field, of value null, and
    is accepted. *)
Lemma null_subtype_accepted :
  ~ (accept listener hi_null_subtype = Ok true
     <-> spec_accept hi_null_subtype "C1").
Proof.
  intros [Hspec _].
  destruct (Hspec eq_refl) as (_ & _ & _ & Habsent).
  vm_compute in Habsent. discriminate.
Qed.

Lemma filter_accepts_iff_run :
  accept listener hi = Ok true
  /\ accept listener (delete "user" hi) = Ok false
  /\ result_of (handle_message_events listener (envelope hi) no_file)
     = result_of (print_message listener hi no_file).
Proof.
  destruct (filter_accepts_iff (text:=document) listener) as (Hiff & _ & Hrun).
  split; [|split].
  - apply Hiff. vm_compute. repeat split; eauto.
  - reflexivity.
  - by destruct (Hrun (envelope hi) no_file hi eq_refl eq_refl eq_refl) as [-> _].
Defined.


Lemma missing_text_or_ts_raises_run :
  accept listener hi_without_text = Ok true
  /\ hi_without_text !! "text" = None
  /\ result_of (handle_message_events listener (envelope hi_without_text) no_file)
     = Raise (KeyError "text")
  /\ world_of (handle_message_events listener (envelope hi_without_text) no_file)
     = no_file.
Proof.
  destruct (missing_text_or_ts_raises listener (envelope hi_without_text)
              hi_without_text no_file eq_refl eq_refl eq_refl (or_intror eq_refl))
    as (_ & Hw & _).
  split; [reflexivity|]. split; [reflexivity|]. split; [reflexivity|exact Hw].
Defined.

End Runs.

(** ** Further properties of the store *)

Section StoreCoverage.

Context {text : Type} `{Codec : JsonCodec text}.
Variable self : RealtimeSlackListener.

Ltac unfold_io :=
  unfold try_except, bind, path_exists, path_st_size, load_file, lift, ret,
    throw, print, emit, dump_file, open_w, dump in *.

(** A content that loads as the store of [ms] holds its three fields. *)
Lemma holds_store_loads (t : text) (ms : list json) :
  json_loads t = Some (store self ms) ->
  holds_store t (channel_name self) (channel_id self) ms.
Proof.
  intros Hl. unfold holds_store. rewrite Hl. unfold store.
  eexists. split; [reflexivity|].
  split; [by rewrite !dom_insert_L, dom_empty_L, (right_id_L ∅ (∪))|].
  repeat split; reflexivity.
Qed.

Lemma store_set_messages (ms ms' : list json) (d : gmap string json) :
  store self ms = JObject d ->
  JObject (<["messages" := JArray ms']> d) = store self ms'.
Proof.
  intros [= <-]. reflexivity.
Qed.

Lemma fresh_store_encodable (m : json) :
  utf8_encodable (channel_name self) = true ->
  utf8_encodable (channel_id self) = true ->
  encodable m = true ->
  encodable (store self [m]) = true.
Proof.
  intros Hname Hid Hm. apply encodable_store; [exact Hname|exact Hid|].
  apply Forall_cons_2; [exact Hm|apply Forall_nil_2].
Qed.

Lemma fresh_store_unencodable (m : json) :
  encodable m = false -> encodable (store self [m]) = false.
Proof.
  intros Hm. apply (unencodable_ends_with m); [exact Hm|apply store_ends_with].
Qed.

(** On a writable file the append of a record that can be encoded ends
    with a store, written in full, whose last message is the record. *)
Lemma save_writable_shape (w : world text) (m : json) :
  writable w = true ->
  utf8_encodable (channel_name self) = true ->
  utf8_encodable (channel_id self) = true ->
  encodable m = true ->
  exists d ms tr,
    save_message_to_json self m w
      = (Ok tt, World (Some (json_dumps (JObject d))) true (readable w), tr)
    /\ d !! "messages" = Some (JArray (ms ++ [m]))
    /\ encodable (JObject d) = true.
Proof.
  intros Hw Hname Hid Hm.
  pose proof (fresh_store_encodable m Hname Hid Hm) as Hs.
  assert (Hwr : write_result (store self [m]) = json_dumps (store self [m]))
    by (unfold write_result; rewrite Hs; reflexivity).
  destruct (store_ends_with self m) as (d1 & ms1 & Hd1 & Hm1).
  assert (Hfall : forall e before,
            fallback_outcome self m e before (readable w)
            = (Ok tt, World (Some (json_dumps (JObject d1))) true (readable w),
               before ++ [Stdout (ErrorSaving e); Truncated;
                          Written (json_dumps (JObject d1)); Stdout CreatedFresh])).
  { intros e before. unfold fallback_outcome. rewrite Hwr, Hs, Hd1. reflexivity. }
  rewrite Hd1 in Hs.
  destruct (prepared self m w) as [v|e] eqn:Hp.
  - destruct (prepared_ends_with self w m v Hp) as (d & ms & -> & Hms).
    destruct (encodable (JObject d)) eqn:Hv.
    + exists d, ms. eexists.
      split; [apply (save_written self w m _ Hw Hp Hv)|].
      split; [exact Hms|exact Hv].
    + exists d1, ms1. eexists.
      split; [rewrite (save_fallback_after_write self w m _ Hw Hp Hv); apply Hfall|].
      split; [exact Hm1|exact Hs].
  - exists d1, ms1. eexists.
    split; [rewrite (save_fallback self w m e Hw Hp); apply Hfall|].
    split; [exact Hm1|exact Hs].
Qed.

(** X1: [save_message_to_json] returns normally from every world, for
    every record: whatever goes wrong with the file is absorbed by one of
    its two handlers, and the call leaves the file's write permission
    alone. *)
Theorem save_never_raises (w : world text) (m : json) :
  result_of (save_message_to_json self m w) = Ok tt
  /\ writable (world_of (save_message_to_json self m w)) = writable w.
Proof.
  destruct (writable w) eqn:Hw.
  - destruct (prepared self m w) as [v|e] eqn:Hp; [destruct (encodable v) eqn:Hv|].
    + rewrite (save_written self w m v Hw Hp Hv). split; reflexivity.
    + rewrite (save_fallback_after_write self w m v Hw Hp Hv). split; reflexivity.
    + rewrite (save_fallback self w m e Hw Hp). split; reflexivity.
  - destruct (save_closed self w m Hw) as [e ->]. split; [reflexivity|exact Hw].
Qed.

(** X2: when the backing file cannot be opened for writing, the append
    reports the first failure and then the failure of the fallback write,
    returns normally, and leaves the world as it was: the record is lost
    and the file keeps its content. *)
Theorem unwritable_file_loses_record (w : world text) (m : json) :
  writable w = false ->
  exists e,
    save_message_to_json self m w
      = (Ok tt, w, [Stdout (ErrorSaving e); Stdout (CriticalError OSError)]).
Proof.
  intros Hw. exact (save_closed self w m Hw).
Qed.

(** X3: when the backing file is missing or has length zero and can be
    written, the append of a record that can be encoded (as can the
    channel name and id) takes the ordinary path: it reports success, not
    an error, and leaves a file that holds exactly three fields, the
    listener's channel name, its channel id, and the messages, which are
    the one record. *)
Theorem missing_or_empty_file_starts_store (w : world text) (m : json) :
  (file w = None \/ exists t, file w = Some t /\ st_size t = 0) ->
  writable w = true ->
  utf8_encodable (channel_name self) = true ->
  utf8_encodable (channel_id self) = true ->
  encodable m = true ->
  (exists t', trace_of (save_message_to_json self m w)
              = [Truncated; Written t'; Stdout MessageSaved]
      /\ file (world_of (save_message_to_json self m w)) = Some t'
      /\ holds_store t' (channel_name self) (channel_id self) [m]).
Proof.
  intros Hf Hw Hname Hid Hm.
  pose proof (fresh_store_encodable m Hname Hid Hm) as Hs.
  rewrite (save_blank self w m Hf Hw Hs).
  eexists. split; [reflexivity|]. split; [reflexivity|].
  apply (holds_store_dumps self [m] Hs).
Qed.

(** X4: once one append has gone through on a file that can be read and
    written, the file holds a store, so the appends that follow never
    fall back to a fresh store: after the record [m] and then the records
    [rs], all of which can be encoded (as can the channel name and id),
    the messages end with [m] followed by [rs] in call order. *)
Theorem appends_after_first_keep_all (w : world text) (m : json) (rs : list json) :
  writable w = true ->
  readable w = true ->
  utf8_encodable (channel_name self) = true ->
  utf8_encodable (channel_id self) = true ->
  encodable m = true ->
  Forall (fun r => encodable r = true) rs ->
  exists t d ms,
    file (world_of (save_each self (m :: rs) w)) = Some t
    /\ json_loads t = Some (JObject d)
    /\ d !! "messages" = Some (JArray (ms ++ m :: rs)).
Proof.
  intros Hw Hr Hname Hid Hm Hrs.
  destruct (save_writable_shape w m Hw Hname Hid Hm) as (d & ms & tr & Hs & Hms & Hd).
  destruct (save_each_cons self m rs _ _ _ Hs) as [_ ->].
  destruct (save_each_parsed self rs
              (World (Some (json_dumps (JObject d))) true (readable w))
              (json_dumps (JObject d)) d (ms ++ [m]))
    as (_ & t' & Hf' & Hl');
    [reflexivity | exact Hr | apply loads_dumps; exact Hd | exact Hms
    | reflexivity | exact Hd | exact Hrs |].
  exists t', (<["messages" := JArray ((ms ++ [m]) ++ rs)]> d), ms.
  split; [exact Hf'|]. split; [exact Hl'|].
  rewrite lookup_insert_eq, <- app_assoc. reflexivity.
Qed.

(** X5: from a state without a backing file, where one can be created
    and read, initialising and then appending the records [rs] one call
    after the other, all of which can be encoded (as can the channel name
    and id), leaves a file with exactly three fields: the listener's
    channel name, its channel id, and the messages [rs] in call order. *)
Theorem initialize_then_append (w : world text) (rs : list json) :
  file w = None ->
  writable w = true ->
  readable w = true ->
  utf8_encodable (channel_name self) = true ->
  utf8_encodable (channel_id self) = true ->
  Forall (fun r => encodable r = true) rs ->
  let o := bind (initialize_messages_file self) (fun _ => save_each self rs) w in
  result_of o = Ok tt
  /\ exists t, file (world_of o) = Some t
       /\ holds_store t (channel_name self) (channel_id self) rs.
Proof.
  intros Hf Hw Hr Hname Hid Hrs o. subst o.
  assert (Hs : encodable (store self []) = true)
    by (apply encodable_store; [exact Hname|exact Hid|apply Forall_nil_2]).
  pose proof (initialize_creates self w Hf Hw Hs) as Hinit.
  destruct (store_fields self []) as (d0 & Hd0 & _ & _ & Hm0).
  assert (Hl0 : json_loads (json_dumps (store self [])) = Some (JObject d0))
    by (rewrite (loads_dumps _ Hs); rewrite Hd0; reflexivity).
  rewrite Hd0 in Hs.
  destruct (save_each_parsed self rs
              (World (Some (json_dumps (store self []))) true (readable w))
              (json_dumps (store self [])) d0 [])
    as (Hres & t' & Hf' & Hl');
    [reflexivity | exact Hr | exact Hl0 | exact Hm0 | reflexivity | exact Hs
    | exact Hrs |].
  unfold bind. rewrite Hinit. cbv beta iota zeta.
  destruct (save_each self rs
              (World (Some (json_dumps (store self []))) true (readable w)))
    as [[r w'] tr].
  unfold result_of, world_of in *. cbn [fst snd] in *.
  split; [exact Hres|]. exists t'. split; [exact Hf'|].
  apply holds_store_loads. rewrite Hl'. f_equal.
  apply (store_set_messages [] _ _ Hd0).
Qed.

(** X6: initialisation has no handler of its own: when there is no
    backing file and one cannot be created, [initialize_messages_file]
    raises the error of [open], prints nothing and changes nothing. *)
Theorem initialize_unwritable_raises (w : world text) :
  file w = None ->
  writable w = false ->
  initialize_messages_file self w = (Raise OSError, w, []).
Proof.
  intros Hf Hw. destruct w as [f wr rd]. simpl in *. subst f wr.
  unfold initialize_messages_file. unfold_io. reflexivity.
Qed.

(** The append of a record that cannot be encoded, on a file that can be
    opened for writing: both dumps stop part of the way. *)
Lemma save_unencodable (w : world text) (m : json) :
  writable w = true ->
  encodable m = false ->
  result_of (save_message_to_json self m w) = Ok tt
  /\ file (world_of (save_message_to_json self m w))
     = Some (json_partial (store self [m]))
  /\ json_loads (json_partial (store self [m])) = None
  /\ last (trace_of (save_message_to_json self m w))
     = Some (Stdout (CriticalError UnicodeEncodeError)).
Proof.
  intros Hw Hm.
  pose proof (fresh_store_unencodable m Hm) as Hs.
  assert (Hwr : write_result (store self [m]) = json_partial (store self [m]))
    by (unfold write_result; rewrite Hs; reflexivity).
  assert (Hfall : forall e before,
            fallback_outcome self m e before (readable w)
            = (Ok tt, World (Some (json_partial (store self [m]))) true (readable w),
               before ++ [Stdout (ErrorSaving e); Truncated;
                          Written (json_partial (store self [m]));
                          Stdout (CriticalError UnicodeEncodeError)])).
  { intros e before. unfold fallback_outcome. rewrite Hwr, Hs. reflexivity. }
  assert (Hout : exists e before,
            save_message_to_json self m w
            = fallback_outcome self m e before (readable w)).
  { destruct (prepared self m w) as [v|e] eqn:Hp.
    - pose proof (unencodable_ends_with m v Hm (prepared_ends_with self w m v Hp))
        as Hv.
      eexists _, _. apply (save_fallback_after_write self w m v Hw Hp Hv).
    - eexists _, _. apply (save_fallback self w m e Hw Hp). }
  destruct Hout as (e & before & ->). rewrite Hfall.
  split; [reflexivity|]. split; [reflexivity|].
  split; [apply loads_partial; exact Hs|].
  unfold trace_of. cbn [snd]. rewrite last_app. reflexivity.
Qed.

(** X29: a record that cannot be encoded destroys the store.  On a file
    that can be opened for writing, whatever it held, the append of such a
    record returns normally after the line for the critical error, and
    leaves in the file the beginning of a fresh store, which does not
    load: every message recorded before is lost. *)
Theorem unencodable_record_destroys_store (w : world text) (m : json) :
  writable w = true ->
  encodable m = false ->
  result_of (save_message_to_json self m w) = Ok tt
  /\ file (world_of (save_message_to_json self m w))
     = Some (json_partial (store self [m]))
  /\ json_loads (json_partial (store self [m])) = None
  /\ last (trace_of (save_message_to_json self m w))
     = Some (Stdout (CriticalError UnicodeEncodeError)).
Proof.
  intros Hw Hm. exact (save_unencodable w m Hw Hm).
Qed.

(** X30: a store that cannot be opened for reading is replaced.  When the
    backing file is not empty and the open for reading fails, the handler
    reports the error and writes the fresh store: with a record, a channel
    name and a channel id that can be encoded, the file afterwards holds
    the listener's channel name and id and the one record, whatever
    messages it held before. *)
Theorem unreadable_file_is_replaced (w : world text) (t : text) (m : json) :
  file w = Some t ->
  0 < st_size t ->
  readable w = false ->
  writable w = true ->
  utf8_encodable (channel_name self) = true ->
  utf8_encodable (channel_id self) = true ->
  encodable m = true ->
  exists t',
    save_message_to_json self m w
      = (Ok tt, World (Some t') true false,
         [Stdout (ErrorSaving OSError); Truncated; Written t'; Stdout CreatedFresh])
    /\ holds_store t' (channel_name self) (channel_id self) [m].
Proof.
  intros Hf Hpos Hr Hw Hname Hid Hm.
  pose proof (fresh_store_encodable m Hname Hid Hm) as Hs.
  assert (Hwr : write_result (store self [m]) = json_dumps (store self [m]))
    by (unfold write_result; rewrite Hs; reflexivity).
  assert (Hp : prepared self m w = Raise OSError).
  { unfold prepared. rewrite Hf, (bool_decide_eq_true_2 _ Hpos), Hr. reflexivity. }
  rewrite (save_fallback self w m OSError Hw Hp).
  unfold fallback_outcome. rewrite Hwr, Hs, Hr.
  eexists. split; [reflexivity|]. apply (holds_store_dumps self [m] Hs).
Qed.

End StoreCoverage.

(** ** Further properties of the profile lookup *)

Section ProfileCoverage.

Context {text : Type} `{Codec : JsonCodec text}.
Variable self : RealtimeSlackListener.

Ltac unfold_lookup :=
  unfold get_user_info, response_getitem, try_except, bind, lift, ret, emit,
    result_of, world_of, trace_of in *.

Ltac split_results :=
  repeat (cbv beta iota zeta;
          match goal with
          | |- context [match ?x with Ok _ => _ | Raise _ => _ end] =>
              destruct x eqn:?
          end);
  cbv beta iota zeta.

(** A handler that only returns a value leaves no exception of the class
    it catches. *)
Lemma try_except_ret_absorbs {A} (m : M A) (c : exn -> bool) (a : exn -> A)
    (w : world text) (e : exn) :
  result_of (try_except m c (fun e' => ret (a e')) w) = Raise e -> c e = false.
Proof.
  unfold try_except, ret, result_of.
  destruct (m w) as [[[x|e'] w1] t1]; simpl; [done|].
  destruct (c e') eqn:Hc; simpl; [done|]. by intros [= <-].
Qed.

(** The profile returned has the five keys and no other. *)
Lemma get_user_info_ok_keys (user_id : json) (w : world text)
    (info : gmap string json) :
  result_of (get_user_info self user_id w) = Ok info -> dom info = profile_keys.
Proof.
  unfold_lookup.
  destruct (web_client_users_info self user_id) as [response|e].
  - split_results; simpl; try discriminate;
      try (match goal with
           | |- context [is_SlackApiError ?e] => destruct e; simpl; try discriminate
           end);
      intros [= <-]; unfold placeholder, profile_keys;
      rewrite !dom_insert_L, dom_empty_L; set_solver.
  - destruct e; simpl; try discriminate;
      intros [= <-]; unfold placeholder, profile_keys;
      rewrite !dom_insert_L, dom_empty_L; set_solver.
Qed.

(** X7: every call of [get_user_info] makes exactly one lookup call, for
    the id it was given, whatever the outcome; it keeps nothing between
    calls and leaves the world, the backing file included, as it was. *)
Theorem lookup_makes_one_call (user_id : json) (w : world text) :
  world_of (get_user_info self user_id w) = w
  /\ trace_of (get_user_info self user_id w) = [UsersInfo user_id].
Proof.
  destruct (get_user_info_frame self user_id w) as [r ->]. by split.
Qed.

(** X8: whenever [get_user_info] returns, the profile has exactly the keys
    id, name, real_name, display_name and email, so that the five
    subscripts of [print_message] on it cannot fail. *)
Theorem profile_has_five_keys (user_id : json) (w : world text)
    (info : gmap string json) :
  result_of (get_user_info self user_id w) = Ok info ->
  dom info = profile_keys
  /\ forall k, k ∈ profile_keys -> exists v, dict_subscript info k = Ok v.
Proof.
  intros Hok. pose proof (get_user_info_ok_keys user_id w info Hok) as Hdom.
  split; [done|]. intros k Hk. rewrite <- Hdom in Hk.
  apply elem_of_dom in Hk as [v Hv]. exists v. unfold dict_subscript. by rewrite Hv.
Qed.

(** X9: [get_user_info] never lets the platform's API error through: if it
    raises, the exception is of another class. *)
Theorem api_error_never_escapes (user_id : json) (w : world text) (e : exn) :
  result_of (get_user_info self user_id w) = Raise e -> e <> SlackApiError.
Proof.
  intros Hraise. unfold get_user_info in Hraise.
  apply (try_except_ret_absorbs _ _ (fun _ => placeholder user_id)) in Hraise.
  by intros ->.
Qed.

(** X10: a field that the response does carry is copied as it is, a null
    value included: [real_name] from the user object, [display_name] and
    [email] from its profile object; the empty string stands in only for a
    field that is absent. *)
Theorem present_fields_pass_through (user_id : json) (w : world text)
    (response user : gmap string json) (id name : json) :
  web_client_users_info self user_id = Ok response ->
  response !! "user" = Some (JObject user) ->
  user !! "id" = Some id ->
  user !! "name" = Some name ->
  (user !! "profile" = None \/ exists p, user !! "profile" = Some (JObject p)) ->
  exists info,
    result_of (get_user_info self user_id w) = Ok info
    /\ (forall v, user !! "real_name" = Some v -> info !! "real_name" = Some v)
    /\ (forall v, profile_field user "display_name" = Some v ->
                  info !! "display_name" = Some v)
    /\ (forall v, profile_field user "email" = Some v -> info !! "email" = Some v).
Proof.
  intros Hresp Huser Hid Hname Hprofile.
  unfold get_user_info, response_getitem, profile_field.
  unfold try_except, bind, lift, ret, emit.
  rewrite Hresp. cbv beta iota zeta. unfold dict_get. rewrite Huser. simpl default.
  unfold subscript, method_get, dict_subscript, dict_get_default.
  rewrite Hid, Hname. cbv beta iota zeta.
  destruct Hprofile as [Hp | [p Hp]]; rewrite Hp; simpl;
    eexists; (split; [reflexivity|]);
    repeat split; intros v Hv; try discriminate; rewrite ?Hv; by simplify_map_eq.
Qed.

(** X11: a response of another shape is not absorbed.  Without a user
    object the first subscript raises a type error; a user object without
    id, or without name, raises the key error of that key; a profile that
    is present and is not an object raises an attribute error. *)
Theorem malformed_response_raises (user_id : json) (w : world text)
    (response : gmap string json) :
  web_client_users_info self user_id = Ok response ->
  ((forall user, response !! "user" <> Some (JObject user)) ->
     result_of (get_user_info self user_id w) = Raise TypeError)
  /\ (forall user, response !! "user" = Some (JObject user) ->
        user !! "id" = None ->
        result_of (get_user_info self user_id w) = Raise (KeyError "id"))
  /\ (forall user, response !! "user" = Some (JObject user) ->
        is_Some (user !! "id") -> user !! "name" = None ->
        result_of (get_user_info self user_id w) = Raise (KeyError "name"))
  /\ (forall user profile, response !! "user" = Some (JObject user) ->
        is_Some (user !! "id") -> is_Some (user !! "name") ->
        user !! "profile" = Some profile ->
        (forall p, profile <> JObject p) ->
        result_of (get_user_info self user_id w) = Raise AttributeError).
Proof.
  intros Hresp.
  unfold get_user_info, response_getitem.
  unfold try_except, bind, lift, ret, emit, result_of.
  rewrite Hresp. cbv beta iota zeta. unfold dict_get.
  split; [|split; [|split]].
  - intros Hno. destruct (response !! "user") as [[| | | | | |user]|]; simpl; try done.
    by destruct (Hno user).
  - intros user -> Hid. simpl. unfold dict_subscript. by rewrite Hid.
  - intros user -> [id Hid] Hname. simpl. unfold dict_subscript.
    by rewrite Hid, Hname.
  - intros user profile -> [id Hid] [name Hname] Hp Hnot. simpl.
    unfold dict_subscript, dict_get_default. rewrite Hid, Hname, Hp. simpl.
    destruct profile as [| | | | | |p]; simpl; try done. by destruct (Hnot p).
Qed.

End ProfileCoverage.

(** ** Further properties of the handler *)

Section PipelineCoverage.

Context {text : Type} `{Codec : JsonCodec text}.
Variable self : RealtimeSlackListener.

Ltac unfold_steps :=
  unfold bind, lift, ret, print, emit in *.


Lemma dict_subscript_Some (d : gmap string json) (k : string) (v : json) :
  d !! k = Some v -> dict_subscript d k = Ok v.
Proof. intros Hk. unfold dict_subscript. by rewrite Hk. Qed.

Lemma dict_subscript_None (d : gmap string json) (k : string) :
  d !! k = None -> dict_subscript d k = Raise (KeyError k).
Proof. intros Hk. unfold dict_subscript. by rewrite Hk. Qed.

(** Copying the five keys of a profile gives the profile back. *)
Lemma profile_copy (info : gmap string json) (v1 v2 v3 v4 v5 : json) :
  dom info = profile_keys ->
  info !! "id" = Some v1 ->
  info !! "name" = Some v2 ->
  info !! "real_name" = Some v3 ->
  info !! "display_name" = Some v4 ->
  info !! "email" = Some v5 ->
  <["id" := v1]> (<["name" := v2]> (<["real_name" := v3]>
    (<["display_name" := v4]> (<["email" := v5]> ∅)))) = info.
Proof.
  intros Hdom H1 H2 H3 H4 H5. apply map_eq. intros k.
  destruct (decide (k = "id")) as [->|N1]; [by simplify_map_eq|].
  destruct (decide (k = "name")) as [->|N2]; [by simplify_map_eq|].
  destruct (decide (k = "real_name")) as [->|N3]; [by simplify_map_eq|].
  destruct (decide (k = "display_name")) as [->|N4]; [by simplify_map_eq|].
  destruct (decide (k = "email")) as [->|N5]; [by simplify_map_eq|].
  rewrite !lookup_insert_ne, lookup_empty by done.
  symmetry. apply not_elem_of_dom. rewrite Hdom. unfold profile_keys.
  rewrite !elem_of_union, !elem_of_singleton. tauto.
Qed.

(** With its three fields present, the clock and the lookup answering,
    [print_message] shows the banner and saves the record. *)
Lemma print_message_ok (event info : gmap string json) (w : world text)
    (user_id ts message : json) (formatted : string) :
  event !! "user" = Some user_id ->
  result_of (get_user_info self user_id w) = Ok info ->
  event !! "ts" = Some ts ->
  clock_format self ts = Ok formatted ->
  event !! "text" = Some message ->
  print_message self event w =
    (result_of (save_message_to_json self
                  (message_data self event formatted ts info message) w),
     world_of (save_message_to_json self
                 (message_data self event formatted ts info message) w),
     [UsersInfo user_id;
      Stdout (NewMessage (JString formatted) (dict_get info "real_name")
                         (dict_get info "name") message (channel_name self))]
     ++ trace_of (save_message_to_json self
                    (message_data self event formatted ts info message) w)).
Proof.
  intros Hu Hinfo Hts Hclock Htext.
  pose proof (get_user_info_ok_keys self user_id w info Hinfo) as Hdom.
  destruct (get_user_info_frame self user_id w) as [r Hg].
  rewrite Hg in Hinfo. unfold result_of in Hinfo. simpl in Hinfo. subst r.
  assert (Hkey : forall k, k ∈ profile_keys -> exists v, info !! k = Some v).
  { intros k Hk. rewrite <- Hdom in Hk. by apply elem_of_dom in Hk. }
  destruct (Hkey "id") as [v1 H1]; [unfold profile_keys; set_solver|].
  destruct (Hkey "name") as [v2 H2]; [unfold profile_keys; set_solver|].
  destruct (Hkey "real_name") as [v3 H3]; [unfold profile_keys; set_solver|].
  destruct (Hkey "display_name") as [v4 H4]; [unfold profile_keys; set_solver|].
  destruct (Hkey "email") as [v5 H5]; [unfold profile_keys; set_solver|].
  unfold print_message, format_timestamp. unfold_steps.
  rewrite (dict_subscript_Some _ _ _ Hu), (dict_subscript_Some _ _ _ Hts),
    (dict_subscript_Some _ _ _ Htext).
  cbv beta iota zeta. rewrite Hg. cbv beta iota zeta. rewrite Hclock.
  cbv beta iota zeta.
  rewrite (dict_subscript_Some _ _ _ H1), (dict_subscript_Some _ _ _ H2),
    (dict_subscript_Some _ _ _ H3), (dict_subscript_Some _ _ _ H4),
    (dict_subscript_Some _ _ _ H5).
  cbv beta iota zeta.
  rewrite (profile_copy info v1 v2 v3 v4 v5 Hdom H1 H2 H3 H4 H5).
  unfold dict_get. rewrite H2, H3. simpl default.
  fold (message_data self event formatted ts info message).
  unfold result_of, world_of, trace_of.
  by destruct (save_message_to_json self
                 (message_data self event formatted ts info message) w)
    as [[r w'] t].
Qed.



(** X12: for an event with its user, ts and text fields, when the clock
    renders the timestamp and the lookup returns a profile, [print_message]
    makes the one lookup, shows the banner and hands [save_message_to_json]
    the record of lines 143-162, whose ["user"] entry is the profile
    returned; its result and its world are those of that append. *)
Theorem print_message_saves_record (event info : gmap string json) (w : world text)
    (user_id ts message : json) (formatted : string) :
  event !! "user" = Some user_id ->
  result_of (get_user_info self user_id w) = Ok info ->
  event !! "ts" = Some ts ->
  clock_format self ts = Ok formatted ->
  event !! "text" = Some message ->
  let record := message_data self event formatted ts info message in
  result_of (print_message self event w)
    = result_of (save_message_to_json self record w)
  /\ world_of (print_message self event w)
    = world_of (save_message_to_json self record w)
  /\ trace_of (print_message self event w)
    = [UsersInfo user_id;
       Stdout (NewMessage (JString formatted) (dict_get info "real_name")
                          (dict_get info "name") message (channel_name self))]
      ++ trace_of (save_message_to_json self record w).
Proof.
  intros Hu Hinfo Hts Hclock Htext record. subst record.
  by rewrite (print_message_ok event info w user_id ts message formatted
                Hu Hinfo Hts Hclock Htext).
Qed.

(** The record of lines 143-162 has twelve keys. *)
Lemma message_data_fields (event info : gmap string json) (formatted : string)
    (ts message : json) :
  exists r,
    message_data self event formatted ts info message = JObject r
    /\ dom r = record_keys
    /\ r !! "timestamp" = Some (JString formatted)
    /\ r !! "slack_timestamp" = Some ts
    /\ r !! "message" = Some message
    /\ r !! "user" = Some (JObject info)
    /\ r !! "channel_name" = Some (JString (channel_name self))
    /\ r !! "channel_id" = Some (JString (channel_id self))
    /\ r !! "message_id" = Some (default (JString "") (event !! "client_msg_id"))
    /\ (forall k, k ∈ ["thread_ts"; "parent_user_id"] ->
          r !! k = Some (default (JString "") (event !! k)))
    /\ (forall k, k ∈ ["reactions"; "attachments"; "files"] ->
          r !! k = Some (default (JArray []) (event !! k))).
Proof.
  eexists. split; [reflexivity|]. split.
  { unfold record_keys. rewrite !dom_insert_L, dom_empty_L. set_solver. }
  unfold dict_get_default.
  repeat split; try by simplify_map_eq.
  - intros k Hk. rewrite !elem_of_cons in Hk.
    destruct Hk as [-> | [-> | Hk]]; [by simplify_map_eq..|by apply elem_of_nil in Hk].
  - intros k Hk. rewrite !elem_of_cons in Hk.
    destruct Hk as [-> | [-> | [-> | Hk]]];
      [by simplify_map_eq..|by apply elem_of_nil in Hk].
Qed.

(** X13: for an event with its user, ts and text fields, when the clock
    renders the timestamp and the lookup returns a profile,
    [print_message] ends as the append of one record does, and that
    record has exactly twelve keys, whatever else the event carries: the
    rendered time, the timestamp, the text and the profile, the
    listener's channel name and id, and six optional fields.  An optional
    field of the event is copied as it is; when the event lacks it the
    record holds the empty string ([message_id], [thread_ts],
    [parent_user_id]) or the empty list ([reactions], [attachments],
    [files]).  Where there is no backing file and one can be created,
    the file that [print_message] leaves holds that record as its one
    message, provided the record and the channel name and id can be
    encoded. *)
Theorem record_fields (event info : gmap string json) (w : world text)
    (user_id ts message : json) (formatted : string) :
  event !! "user" = Some user_id ->
  result_of (get_user_info self user_id w) = Ok info ->
  event !! "ts" = Some ts ->
  clock_format self ts = Ok formatted ->
  event !! "text" = Some message ->
  exists r,
    result_of (print_message self event w)
      = result_of (save_message_to_json self (JObject r) w)
    /\ world_of (print_message self event w)
      = world_of (save_message_to_json self (JObject r) w)
    /\ (file w = None -> writable w = true ->
        utf8_encodable (channel_name self) = true ->
        utf8_encodable (channel_id self) = true ->
        encodable (JObject r) = true ->
        exists t', file (world_of (print_message self event w)) = Some t'
          /\ holds_store t' (channel_name self) (channel_id self) [JObject r])
    /\ dom r = record_keys
    /\ r !! "timestamp" = Some (JString formatted)
    /\ r !! "slack_timestamp" = Some ts
    /\ r !! "message" = Some message
    /\ r !! "user" = Some (JObject info)
    /\ r !! "channel_name" = Some (JString (channel_name self))
    /\ r !! "channel_id" = Some (JString (channel_id self))
    /\ r !! "message_id" = Some (default (JString "") (event !! "client_msg_id"))
    /\ (forall k, k ∈ ["thread_ts"; "parent_user_id"] ->
          r !! k = Some (default (JString "") (event !! k)))
    /\ (forall k, k ∈ ["reactions"; "attachments"; "files"] ->
          r !! k = Some (default (JArray []) (event !! k))).
Proof.
  intros Hu Hinfo Hts Hclock Htext.
  destruct (message_data_fields event info formatted ts message)
    as (r & Hrec & Hfields).
  pose proof (print_message_ok event info w user_id ts message formatted
                Hu Hinfo Hts Hclock Htext) as Hp.
  rewrite Hrec in Hp. exists r. rewrite Hp.
  split; [reflexivity|]. split; [reflexivity|]. split; [|exact Hfields].
  intros Hf Hw Hname Hid Hr.
  assert (Hs : encodable (store self [JObject r]) = true).
  { apply encodable_store; [exact Hname|exact Hid|].
    apply Forall_cons_2; [exact Hr|apply Forall_nil_2]. }
  unfold world_of at 1. cbn [fst snd].
  rewrite (save_blank self w (JObject r) (or_introl Hf) Hw Hs).
  eexists. split; [reflexivity|]. apply (holds_store_dumps self _ Hs).
Qed.


(** X15: a lookup refused by the platform does not stop the recording:
    the record is saved with the placeholder profile as its sender. *)
Theorem refused_lookup_still_records (event : gmap string json) (w : world text)
    (user_id ts message : json) (formatted : string) :
  event !! "user" = Some user_id ->
  web_client_users_info self user_id = Raise SlackApiError ->
  event !! "ts" = Some ts ->
  clock_format self ts = Ok formatted ->
  event !! "text" = Some message ->
  let record :=
    message_data self event formatted ts (placeholder user_id) message in
  result_of (print_message self event w)
    = result_of (save_message_to_json self record w)
  /\ world_of (print_message self event w)
    = world_of (save_message_to_json self record w).
Proof.
  intros Hu Herr Hts Hclock Htext record. subst record.
  assert (Hinfo : result_of (get_user_info self user_id w)
                  = Ok (placeholder user_id)).
  { unfold get_user_info, try_except, bind, lift, ret, emit, result_of.
    by rewrite Herr. }
  by rewrite (print_message_ok event _ w user_id ts message formatted
                Hu Hinfo Hts Hclock Htext).
Qed.

(** X16: a lookup that fails with an exception other than the API error
    makes the handler raise that exception after the acknowledgment and
    the lookup call; nothing is written and the world is unchanged. *)
Theorem other_lookup_error_aborts (req : SocketModeRequest)
    (event : gmap string json) (w : world text) (user_id : json) (e : exn) :
  req_type req = "events_api" ->
  payload req !! "event" = Some (JObject event) ->
  accept self event = Ok true ->
  event !! "user" = Some user_id ->
  web_client_users_info self user_id = Raise e ->
  e <> SlackApiError ->
  result_of (handle_message_events self req w) = Raise e
  /\ world_of (handle_message_events self req w) = w
  /\ file_states (trace_of (handle_message_events self req w)) = []
  /\ In (UsersInfo user_id) (trace_of (handle_message_events self req w)).
Proof.
  intros Hty Hev Hacc Hu Herr Hne.
  rewrite (handle_accepted self req event user_id w Hty Hev Hacc Hu).
  assert (Hg : get_user_info self user_id w = (Raise e, w, [UsersInfo user_id])).
  { unfold get_user_info, try_except, bind, lift, ret, emit.
    rewrite Herr. by destruct e. }
  assert (Hp : print_message self event w = (Raise e, w, [UsersInfo user_id])).
  { unfold print_message. unfold_steps.
    rewrite (dict_subscript_Some _ _ _ Hu). cbv beta iota zeta. by rewrite Hg. }
  rewrite Hp. unfold result_of, world_of, trace_of. simpl.
  repeat split; auto 10.
Qed.

(** X17: when the timestamp cannot be rendered, the handler raises the
    clock's exception after the lookup has been made; nothing is written
    and the world is unchanged. *)
Theorem unreadable_timestamp_aborts (req : SocketModeRequest)
    (event info : gmap string json) (w : world text) (user_id ts : json) (e : exn) :
  req_type req = "events_api" ->
  payload req !! "event" = Some (JObject event) ->
  accept self event = Ok true ->
  event !! "user" = Some user_id ->
  result_of (get_user_info self user_id w) = Ok info ->
  event !! "ts" = Some ts ->
  clock_format self ts = Raise e ->
  result_of (handle_message_events self req w) = Raise e
  /\ world_of (handle_message_events self req w) = w
  /\ file_states (trace_of (handle_message_events self req w)) = []
  /\ In (UsersInfo user_id) (trace_of (handle_message_events self req w)).
Proof.
  intros Hty Hev Hacc Hu Hinfo Hts Hclock.
  rewrite (handle_accepted self req event user_id w Hty Hev Hacc Hu).
  destruct (get_user_info_frame self user_id w) as [r Hg].
  rewrite Hg in Hinfo. unfold result_of in Hinfo. simpl in Hinfo. subst r.
  assert (Hp : print_message self event w = (Raise e, w, [UsersInfo user_id])).
  { unfold print_message, format_timestamp. unfold_steps.
    rewrite (dict_subscript_Some _ _ _ Hu), (dict_subscript_Some _ _ _ Hts).
    cbv beta iota zeta. rewrite Hg. cbv beta iota zeta. by rewrite Hclock. }
  rewrite Hp. unfold result_of, world_of, trace_of. simpl.
  repeat split; auto 10.
Qed.

(** X18: an events-API envelope whose event the filter rejects is
    acknowledged, reported on the console as skipped and dropped: no
    lookup, no write, the world unchanged, a normal return. *)
Theorem rejected_event_is_dropped (req : SocketModeRequest)
    (event : gmap string json) (w : world text) :
  req_type req = "events_api" ->
  payload req !! "event" = Some (JObject event) ->
  accept self event = Ok false ->
  handle_message_events self req w =
    (Ok tt, w,
     [Ack (envelope_id req);
      Stdout (ReceivedEventType (req_type req));
      Stdout (EventDetails (dict_get_default event "type" (JString "unknown"))
                           (dict_get_default event "channel" (JString "unknown")));
      Stdout (SkippingEvent (dict_get event "type") (dict_get event "channel")
                            (dict_in "user" event) (dict_get event "subtype"))]).
Proof.
  intros Hty Hev Hacc. unfold handle_message_events. unfold_steps.
  rewrite Hty. simpl. unfold dict_subscript at 1. rewrite Hev. simpl.
  by rewrite Hacc.
Qed.

(** X19: an envelope of any type other than "events_api" is acknowledged
    and reported, and that is all: its payload is not read, nothing is
    looked up or written, and the handler returns normally. *)
Theorem other_envelope_types_only_acked (req : SocketModeRequest) (w : world text) :
  req_type req <> "events_api" ->
  handle_message_events self req w =
    (Ok tt, w,
     [Ack (envelope_id req);
      Stdout (ReceivedEventType (req_type req));
      Stdout (if bool_decide (req_type req = "interactive")
              then InteractiveReceived
              else OtherEventType (req_type req))]).
Proof.
  intros Hty. unfold handle_message_events. unfold_steps.
  rewrite bool_decide_eq_false_2 by done. simpl.
  by destruct (bool_decide (req_type req = "interactive")).
Qed.

(** X20: an events-API envelope of another shape makes the handler raise,
    after the acknowledgment and with the world unchanged: a key error
    when the payload has no event, an attribute error when the event is
    not an object, a key error when the event has no type. *)
Theorem malformed_envelope_raises (req : SocketModeRequest) (w : world text) :
  req_type req = "events_api" ->
  (payload req !! "event" = None ->
     handle_message_events self req w =
       (Raise (KeyError "event"), w,
        [Ack (envelope_id req); Stdout (ReceivedEventType (req_type req))]))
  /\ (forall x, payload req !! "event" = Some x ->
        (forall event, x <> JObject event) ->
        handle_message_events self req w =
          (Raise AttributeError, w,
           [Ack (envelope_id req); Stdout (ReceivedEventType (req_type req))]))
  /\ (forall event, payload req !! "event" = Some (JObject event) ->
        event !! "type" = None ->
        handle_message_events self req w =
          (Raise (KeyError "type"), w,
           [Ack (envelope_id req); Stdout (ReceivedEventType (req_type req));
            Stdout (EventDetails (JString "unknown")
                      (dict_get_default event "channel" (JString "unknown")))])).
Proof.
  intros Hty. unfold handle_message_events. unfold_steps. rewrite Hty. simpl.
  split; [|split].
  - intros Hev. unfold dict_subscript. by rewrite Hev.
  - intros x Hev Hnot. unfold dict_subscript. rewrite Hev. simpl.
    destruct x as [| | | | | |event]; simpl; try done. by destruct (Hnot event).
  - intros event Hev Htype. unfold dict_subscript at 1. rewrite Hev. simpl.
    unfold accept, dict_subscript, dict_get_default. by rewrite Htype.
Qed.


End PipelineCoverage.

(** ** Properties of the start-up configuration *)

Section ConfigCoverage.

Lemma truthy_true (v : option string) :
  truthy v = true <-> exists s, v = Some s /\ s <> "".
Proof.
  destruct v as [s|]; simpl.
  - rewrite negb_true_iff, bool_decide_eq_false.
    split; [intros Hs; by exists s|by intros (s' & [= <-] & Hs)].
  - split; [done|by intros (s & ? & _)].
Qed.

Lemma truthy_false (v : option string) :
  truthy v = false <-> v = None \/ v = Some "".
Proof.
  destruct v as [s|]; simpl.
  - rewrite negb_false_iff, bool_decide_eq_true.
    split; [intros ->; by right|by intros [? | [= ->]]].
  - split; [by left|done].
Qed.

Lemma missing_vars_filter (environ : gmap string string) :
  missing_vars environ
    = List.filter (fun name => negb (truthy (getenv environ name))) required_vars.
Proof.
  unfold missing_vars, required_vars. simpl.
  destruct (truthy (getenv environ "SLACK_BOT_TOKEN")),
           (truthy (getenv environ "SLACK_APP_TOKEN")),
           (truthy (getenv environ "CHANNEL_ID")),
           (truthy (getenv environ "CHANNEL_NAME")); reflexivity.
Qed.

Lemma missing_vars_in (environ : gmap string string) (name : string) :
  In name (missing_vars environ) <->
    In name required_vars /\ (environ !! name = None \/ environ !! name = Some "").
Proof.
  rewrite missing_vars_filter, List.filter_In, negb_true_iff, truthy_false.
  reflexivity.
Qed.

Lemma config_all_set (environ : gmap string string) :
  forallb truthy [getenv environ "SLACK_BOT_TOKEN"; getenv environ "SLACK_APP_TOKEN";
                  getenv environ "CHANNEL_ID"; getenv environ "CHANNEL_NAME"] = true
  <-> forall name, In name required_vars ->
        exists s, environ !! name = Some s /\ s <> "".
Proof.
  simpl. rewrite !andb_true_iff, !truthy_true. unfold required_vars, getenv. split.
  - intros (H1 & H2 & H3 & H4 & _) name Hin. simpl in Hin.
    destruct Hin as [<- | [<- | [<- | [<- | []]]]]; done.
  - intros Hall. repeat split; try apply Hall; simpl; auto 10.
Qed.

Lemma config_some_unset (environ : gmap string string) :
  forallb truthy [getenv environ "SLACK_BOT_TOKEN"; getenv environ "SLACK_APP_TOKEN";
                  getenv environ "CHANNEL_ID"; getenv environ "CHANNEL_NAME"] = false
  <-> exists name, In name required_vars
        /\ (environ !! name = None \/ environ !! name = Some "").
Proof.
  split.
  - simpl. rewrite !andb_false_iff, !truthy_false. unfold required_vars, getenv.
    intros [H1 | [H2 | [H3 | [H4 | Hf]]]]; [eexists; split; [|eassumption]; simpl; auto 10..|done].
  - intros (name & Hin & Hv).
    destruct (forallb truthy _) eqn:Hall; [|done].
    destruct (proj1 (config_all_set environ) Hall name Hin) as (s & Hs & Hne).
    destruct Hv as [Hv | Hv]; congruence.
Qed.

(** X22: the listed names are the required settings that are unset or
    empty, in the order of the four tests and each at most once: a name is
    listed exactly when it is one of the four and its value is missing or
    the empty string. *)
Theorem missing_vars_are_the_unset (environ : gmap string string) :
  missing_vars environ
    = List.filter (fun name => negb (truthy (getenv environ name))) required_vars
  /\ List.NoDup (missing_vars environ)
  /\ (forall name, In name (missing_vars environ) <->
        In name required_vars
        /\ (environ !! name = None \/ environ !! name = Some "")).
Proof.
  split; [apply missing_vars_filter|]. split; [|apply missing_vars_in].
  rewrite missing_vars_filter. apply List.NoDup_filter, NoDup_ListNoDup.
  apply (bool_decide_unpack _). by vm_compute.
Qed.

(** X23: the module goes on, with the four values as the environment has
    them, exactly when each of the four settings is set to a non-empty
    string; otherwise it leaves with status 1, after printing the header,
    one line for each missing name and the two hints, and at least one
    name is listed. *)
Theorem configuration_complete_or_exit (environ : gmap string string) :
  ((forall name, In name required_vars ->
      exists s, environ !! name = Some s /\ s <> "")
   <-> load_configuration environ
       = Configured (environ !! "SLACK_BOT_TOKEN") (environ !! "SLACK_APP_TOKEN")
                    (environ !! "CHANNEL_ID") (environ !! "CHANNEL_NAME"))
  /\ ((exists name, In name required_vars
          /\ (environ !! name = None \/ environ !! name = Some ""))
      <-> load_configuration environ
          = SystemExit 1 ([MissingHeader] ++ map MissingVar (missing_vars environ)
                            ++ [CreateDotenvHint; CopyExampleHint]))
  /\ (forall code printed,
        load_configuration environ = SystemExit code printed ->
        code = 1%Z /\ missing_vars environ <> []).
Proof.
  unfold load_configuration. cbv zeta.
  destruct (forallb truthy _) eqn:Hall; simpl.
  - pose proof (proj1 (config_all_set environ) Hall) as Hset.
    split; [by split|]. split; [|by intros code printed].
    split; [|done]. intros Hex.
    pose proof (proj2 (config_some_unset environ) Hex). congruence.
  - pose proof (proj1 (config_some_unset environ) Hall) as (name & Hin & Hv).
    split; [|split].
    + split; [|done]. intros Hset.
      pose proof (proj2 (config_all_set environ) Hset). congruence.
    + split; [done|]. intros _. by exists name.
    + intros code printed [= <- _]. split; [done|].
      intros Hnil.
      assert (Hl : In name (missing_vars environ)).
      { apply (proj2 (missing_vars_in environ name)). by split. }
      rewrite Hnil in Hl. destruct Hl.
Qed.

End ConfigCoverage.

(** ** Properties of the listening session *)

Section SessionCoverage.

Variable self : RealtimeSlackListener.
Variable net : transport.

(** The loop sleeps until the first signal. *)
Lemma keep_alive_until (s : signal) (n : nat) :
  sleep net n = Some s ->
  (forall k, k < n -> sleep net k = None) ->
  forall fuel tick, tick <= n ->
    keep_alive net tick fuel =
      if decide (fuel <= n - tick) then None
      else Some (s, replicate (S (n - tick)) Sleep).
Proof.
  intros Hs Hbefore. induction fuel as [|fuel IH]; intros tick Hle.
  - destruct (decide (0 <= n - tick)); [done|lia].
  - cbn [keep_alive]. destruct (decide (tick = n)) as [->|Hne].
    + rewrite Hs. destruct (decide (S fuel <= n - n)); [lia|].
      by replace (n - n) with 0 by lia.
    + rewrite Hbefore, IH by lia.
      destruct (decide (fuel <= n - S tick)), (decide (S fuel <= n - tick));
        try lia; [done|].
      by replace (n - tick) with (S (n - S tick)) by lia.
Qed.

Lemma keep_alive_forever :
  (forall k, sleep net k = None) ->
  forall fuel tick, keep_alive net tick fuel = None.
Proof.
  intros Hnone. induction fuel as [|fuel IH]; intros tick; simpl; [done|].
  by rewrite Hnone, IH.
Qed.

(** The loop itself only sleeps. *)
Lemma keep_alive_sleeps (fuel : nat) :
  forall tick s tr, keep_alive net tick fuel = Some (s, tr) ->
    exists n, tr = replicate (S n) Sleep.
Proof.
  induction fuel as [|fuel IH]; intros tick s tr; simpl; [done|].
  destruct (sleep net tick) as [s'|].
  - intros [= <- <-]. by exists 0.
  - destruct (keep_alive net (S tick) fuel) as [[s' tr']|] eqn:Hk; [|done].
    intros [= <- <-]. destruct (IH _ _ _ Hk) as [n ->]. by exists (S n).
Qed.

Lemma on_signal_ends (s : signal) :
  exists line, on_signal s = [Shows line; Disconnect].
Proof. destruct s; by eexists. Qed.

Lemma start_listening_readable (name : json) (fuel : nat) :
  channel_readable self net name ->
  start_listening self net fuel =
    match connect net with
    | Some s => Some (Ok tt, session_opening self name ++ on_signal s)
    | None =>
        match keep_alive net 0 fuel with
        | Some (s, tr) => Some (Ok tt, session_opening self name ++ tr ++ on_signal s)
        | None => None
        end
    end.
Proof.
  intros (info & channel & Hinfo & Hch & Hname).
  unfold start_listening, response_getitem, dict_get, subscript, dict_subscript.
  rewrite Hinfo, Hch. simpl. rewrite Hname. reflexivity.
Qed.

(** X24: when the platform refuses the channel lookup with its API error,
    [start_listening] reports it and returns at once, for any length of
    run: it neither connects nor disconnects and does not enter the
    loop. *)
Theorem refused_channel_never_connects (fuel : nat) :
  conversations_info net (channel_id self) = Raise SlackApiError ->
  start_listening self net fuel =
    Some (Ok tt,
          [Shows (StartingListener (channel_name self));
           Shows (ConnectedToChannel (channel_id self));
           ConversationsInfo (channel_id self);
           Shows BotCannotAccess;
           Shows AddBotHint]).
Proof. intros Herr. unfold start_listening. by rewrite Herr. Qed.

(** X25: with the channel readable and the connection made, when the
    first signal cuts short the sleep of tick [n], the listener is still
    in its loop after any [fuel <= n] iterations, and with more it
    returns normally after [n + 1] sleeps, the line of the signal's
    handler and the disconnection. *)
Theorem listens_until_first_signal (name : json) (s : signal) (n fuel : nat) :
  channel_readable self net name ->
  connect net = None ->
  sleep net n = Some s ->
  (forall k, k < n -> sleep net k = None) ->
  (fuel <= n -> start_listening self net fuel = None)
  /\ (n < fuel ->
      start_listening self net fuel =
        Some (Ok tt, session_opening self name ++ replicate (S n) Sleep ++ on_signal s)).
Proof.
  intros Hread Hconn Hs Hbefore.
  rewrite (start_listening_readable name fuel Hread), Hconn.
  rewrite (keep_alive_until s n Hs Hbefore fuel 0) by lia.
  replace (n - 0) with n by lia.
  split; intros Hfuel; destruct (decide (fuel <= n)); try lia; done.
Qed.

(** X26: with the channel readable, the connection made and no signal
    ever, [start_listening] does not return however long it runs: the
    loop has no exit of its own. *)
Theorem listens_forever_without_signal (name : json) (fuel : nat) :
  channel_readable self net name ->
  connect net = None ->
  (forall k, sleep net k = None) ->
  start_listening self net fuel = None.
Proof.
  intros Hread Hconn Hnone.
  rewrite (start_listening_readable name fuel Hread), Hconn.
  by rewrite keep_alive_forever.
Qed.

(** X27: whenever [start_listening] returns, it has disconnected exactly
    if it tried to connect, and then the disconnection is its last
    effect: a session that was opened is closed on every way out, by
    interrupt or by error, also when [connect] itself fails. *)
Theorem connect_is_paired_with_disconnect (fuel : nat) (r : result unit)
    (tr : list session_effect) :
  start_listening self net fuel = Some (r, tr) ->
  (In Connect tr <-> In Disconnect tr)
  /\ (In Connect tr -> r = Ok tt /\ last tr = Some Disconnect).
Proof.
  unfold start_listening.
  set (opening := [Shows _; Shows _; ConversationsInfo _]).
  destruct (match conversations_info net (channel_id self) with
            | Ok channel_info => _
            | Raise e => _
            end) as [name|e].
  - assert (Hend : forall mid s,
              (In Connect (opening ++ [Shows (BotCanAccess name);
                  Shows WaitingForMessages; Connect] ++ mid ++ on_signal s)
               <-> In Disconnect (opening ++ [Shows (BotCanAccess name);
                  Shows WaitingForMessages; Connect] ++ mid ++ on_signal s))
              /\ last (opening ++ [Shows (BotCanAccess name);
                  Shows WaitingForMessages; Connect] ++ mid ++ on_signal s)
                 = Some Disconnect).
    { intros mid s. destruct (on_signal_ends s) as [line ->]. split.
      - split; intros _; rewrite !in_app_iff; simpl; auto 10.
      - change [Shows line; Disconnect] with ([Shows line] ++ [Disconnect]).
        rewrite !app_assoc. apply last_snoc. }
    destruct (connect net) as [s|].
    + intros [= <- <-]. destruct (Hend [] s) as [Hiff Hlast].
      split; [exact Hiff|]. intros _. split; [done|exact Hlast].
    + destruct (keep_alive net 0 fuel) as [[s mid]|]; [|done].
      intros [= <- <-]. destruct (Hend mid s) as [Hiff Hlast].
      split; [exact Hiff|]. intros _. split; [done|exact Hlast].
  - destruct (is_SlackApiError e); intros [= <- <-]; unfold opening; simpl;
      (split; [split; intros Hin; repeat (destruct Hin as [Hin|Hin]; try discriminate); done
              |intros Hin; repeat (destruct Hin as [Hin|Hin]; try discriminate); done]).
Qed.

(** X28: a response to the channel lookup without a channel object, or
    with one that has no name, is not handled: [start_listening] raises a
    type error, or the key error of "name", before it connects. *)
Theorem unreadable_channel_info_raises (info : gmap string json) (fuel : nat) :
  conversations_info net (channel_id self) = Ok info ->
  ((forall channel, info !! "channel" <> Some (JObject channel)) ->
     start_listening self net fuel =
       Some (Raise TypeError,
             [Shows (StartingListener (channel_name self));
              Shows (ConnectedToChannel (channel_id self));
              ConversationsInfo (channel_id self)]))
  /\ (forall channel, info !! "channel" = Some (JObject channel) ->
        channel !! "name" = None ->
        start_listening self net fuel =
          Some (Raise (KeyError "name"),
                [Shows (StartingListener (channel_name self));
                 Shows (ConnectedToChannel (channel_id self));
                 ConversationsInfo (channel_id self)])).
Proof.
  intros Hinfo.
  unfold start_listening, response_getitem, dict_get, subscript, dict_subscript.
  rewrite Hinfo. split.
  - intros Hno. destruct (info !! "channel") as [[| | | | | |channel]|]; simpl; try done.
    by destruct (Hno channel).
  - intros channel -> Hname. simpl. by rewrite Hname.
Qed.

End SessionCoverage.

(** ** The further properties on concrete runs *)

Section CoverageRuns.

Import Sample Scenario.

Lemma unwritable_file_loses_record_run :
  writable read_only = false
  /\ exists e, save_message_to_json listener (record "T1") read_only
       = (Ok tt, read_only, [Stdout (ErrorSaving e); Stdout (CriticalError OSError)]).
Proof.
  split; [reflexivity|].
  exact (unwritable_file_loses_record listener read_only (record "T1") eq_refl).
Defined.

Lemma missing_or_empty_file_starts_store_run :
  file no_file = None
  /\ writable no_file = true
  /\ encodable (record "T1") = true
  /\ exists t', file (world_of (save_message_to_json listener (record "T1") no_file))
                = Some t'
       /\ holds_store t' "general" "C1" [record "T1"].
Proof.
  assert (Hm : encodable (record "T1") = true) by (vm_compute; reflexivity).
  split; [reflexivity|]. split; [reflexivity|]. split; [exact Hm|].
  destruct (missing_or_empty_file_starts_store listener no_file (record "T1")
              (or_introl eq_refl) eq_refl
              listener_name_encodable listener_id_encodable Hm)
    as (t' & _ & Hf & Hholds).
  exists t'. split; [exact Hf|exact Hholds].
Defined.

Lemma appends_after_first_keep_all_run :
  writable corrupt = true
  /\ readable corrupt = true
  /\ Forall (fun r => encodable r = true) [record "T1"; record "T2"; record "T3"]
  /\ exists t d ms,
      file (world_of (save_each listener [record "T1"; record "T2"; record "T3"]
                        corrupt)) = Some t
      /\ json_loads t = Some (JObject d)
      /\ d !! "messages" = Some (JArray (ms ++ [record "T1"; record "T2"; record "T3"])).
Proof.
  assert (Hrs : Forall (fun r => encodable r = true)
                  [record "T1"; record "T2"; record "T3"]).
  { repeat (apply Forall_cons_2; [vm_compute; reflexivity|]). apply Forall_nil_2. }
  split; [reflexivity|]. split; [reflexivity|]. split; [exact Hrs|].
  exact (appends_after_first_keep_all listener corrupt (record "T1")
           [record "T2"; record "T3"] eq_refl eq_refl
           listener_name_encodable listener_id_encodable
           (Forall_inv Hrs) (Forall_inv_tail Hrs)).
Defined.

Lemma initialize_then_append_run :
  file no_file = None
  /\ writable no_file = true
  /\ readable no_file = true
  /\ Forall (fun r => encodable r = true) [record "T1"; record "T2"]
  /\ exists t,
      file (world_of (bind (initialize_messages_file listener)
                           (fun _ => save_each listener [record "T1"; record "T2"])
                           no_file)) = Some t
      /\ holds_store t "general" "C1" [record "T1"; record "T2"].
Proof.
  assert (Hrs : Forall (fun r => encodable r = true) [record "T1"; record "T2"]).
  { repeat (apply Forall_cons_2; [vm_compute; reflexivity|]). apply Forall_nil_2. }
  split; [reflexivity|]. split; [reflexivity|]. split; [reflexivity|].
  split; [exact Hrs|].
  exact (proj2 (initialize_then_append listener no_file [record "T1"; record "T2"]
                  eq_refl eq_refl eq_refl
                  listener_name_encodable listener_id_encodable Hrs)).
Defined.

(** A record with a lone surrogate appended to the store of one message:
    the file is left with the beginning of a fresh store. *)
Lemma unencodable_record_destroys_store_run :
  writable one_message = true
  /\ encodable surrogate_record = false
  /\ file (world_of (save_message_to_json listener surrogate_record one_message))
     = Some (Beginning (store listener [surrogate_record]))
  /\ json_loads (Beginning (store listener [surrogate_record])) = None.
Proof.
  assert (Hm : encodable surrogate_record = false) by (vm_compute; reflexivity).
  destruct (unencodable_record_destroys_store listener one_message surrogate_record
              eq_refl Hm) as (_ & Hf & Hl & _).
  split; [reflexivity|]. split; [exact Hm|]. split; [exact Hf|exact Hl].
Defined.

(** The store of one message cannot be read: the record "T1" is saved
    alone and "T0" is gone. *)
Lemma unreadable_file_is_replaced_run :
  file unreadable = Some (Rendered (store listener [record "T0"]))
  /\ readable unreadable = false
  /\ writable unreadable = true
  /\ encodable (record "T1") = true
  /\ exists t',
      file (world_of (save_message_to_json listener (record "T1") unreadable))
        = Some t'
      /\ holds_store t' "general" "C1" [record "T1"].
Proof.
  assert (Hm : encodable (record "T1") = true) by (vm_compute; reflexivity).
  assert (Hpos : 0 < st_size (Rendered (store listener [record "T0"])))
    by (vm_compute; lia).
  destruct (unreadable_file_is_replaced listener unreadable
              (Rendered (store listener [record "T0"])) (record "T1")
              eq_refl Hpos eq_refl eq_refl
              listener_name_encodable listener_id_encodable Hm)
    as (t' & Hsave & Hholds).
  split; [reflexivity|]. split; [reflexivity|]. split; [reflexivity|].
  split; [exact Hm|].
  exists t'. split; [rewrite Hsave; reflexivity|exact Hholds].
Defined.

Lemma initialize_unwritable_raises_run :
  file nowhere = None
  /\ writable nowhere = false
  /\ initialize_messages_file listener nowhere = (Raise OSError, nowhere, []).
Proof.
  split; [reflexivity|]. split; [reflexivity|].
  exact (initialize_unwritable_raises listener nowhere eq_refl eq_refl).
Defined.

Lemma profile_has_five_keys_run :
  result_of (get_user_info listener (JString "U1") no_file) = Ok bob_profile
  /\ dom bob_profile = profile_keys.
Proof.
  split; [reflexivity|].
  exact (proj1 (profile_has_five_keys listener (JString "U1") no_file bob_profile
                  eq_refl)).
Defined.

Lemma api_error_never_escapes_run :
  result_of (get_user_info offline (JString "U1") no_file)
    = Raise (OtherException "URLError")
  /\ OtherException "URLError" <> SlackApiError.
Proof.
  split; [reflexivity|].
  exact (api_error_never_escapes offline (JString "U1") no_file
           (OtherException "URLError") eq_refl).
Defined.

Lemma present_fields_pass_through_run :
  exists info,
    result_of (get_user_info ann_listener (JString "U2") no_file) = Ok info
    /\ info !! "real_name" = Some JNull
    /\ info !! "email" = Some (JString "ann@example.org").
Proof.
  destruct (present_fields_pass_through ann_listener (JString "U2") no_file
              (ann (JString "U2"))
              (<["id" := JString "U2"]>
               (<["name" := JString "ann"]>
               (<["real_name" := JNull]>
               (<["profile" := JObject (<["email" := JString "ann@example.org"]> ∅)]> ∅))))
              (JString "U2") (JString "ann"))
    as (info & Hr & Hreal & _ & Hemail);
    [reflexivity | reflexivity | reflexivity | reflexivity
    | right; eexists; reflexivity |].
  exists info. split; [exact Hr|]. split; [by apply Hreal|by apply Hemail].
Defined.

Lemma malformed_response_raises_run :
  result_of (get_user_info null_profile_listener (JString "U3") no_file)
    = Raise AttributeError.
Proof.
  destruct (malformed_response_raises null_profile_listener (JString "U3") no_file
              _ eq_refl) as (_ & _ & _ & Hprofile).
  apply (Hprofile _ JNull eq_refl); [by eexists | by eexists | reflexivity | done].
Defined.

Lemma print_message_saves_record_run :
  hi !! "user" = Some (JString "U1")
  /\ result_of (get_user_info listener (JString "U1") no_file) = Ok bob_profile
  /\ clock_format listener (JString "1700000000.000001") = Ok "1700000000.000001"
  /\ world_of (print_message listener hi no_file)
     = world_of (save_message_to_json listener hi_record no_file).
Proof.
  split; [reflexivity|]. split; [reflexivity|]. split; [reflexivity|].
  exact (proj1 (proj2 (print_message_saves_record listener hi bob_profile no_file
                         (JString "U1") (JString "1700000000.000001") (JString "hi")
                         "1700000000.000001"
                         eq_refl eq_refl eq_refl eq_refl eq_refl))).
Defined.

Lemma record_fields_run :
  threaded !! "user" = Some (JString "U1")
  /\ result_of (get_user_info listener (JString "U1") no_file) = Ok bob_profile
  /\ exists r t',
      file (world_of (print_message listener threaded no_file)) = Some t'
      /\ holds_store t' "general" "C1" [JObject r]
      /\ r !! "message" = Some (JString "hi")
      /\ r !! "thread_ts" = Some (JString "1700000000.000001")
      /\ r !! "parent_user_id" = Some (JString "")
      /\ r !! "files" = Some (JArray []).
Proof.
  split; [reflexivity|]. split; [reflexivity|].
  destruct (record_fields listener threaded bob_profile no_file
              (JString "U1") (JString "1700000000.000001") (JString "hi")
              "1700000000.000001" eq_refl eq_refl eq_refl eq_refl eq_refl)
    as (r & _ & _ & Hfile & Hdom & Htime & Hslack & Hmsg & Huser & Hname & Hid
        & Hmid & Hstr & Harr).
  pose proof (Hstr "thread_ts" ltac:(repeat constructor)) as Hth.
  pose proof (Hstr "parent_user_id" ltac:(repeat constructor)) as Hpa.
  pose proof (Harr "reactions" ltac:(repeat constructor)) as Hre.
  pose proof (Harr "attachments" ltac:(repeat constructor)) as Hat.
  pose proof (Harr "files" ltac:(repeat constructor)) as Hfi.
  assert (Hr : encodable (JObject r) = true).
  { apply encodable_object. intros k v Hk.
    assert (Hval : forall key val, r !! key = Some val -> k = key ->
              utf8_encodable key = true -> encodable val = true ->
              utf8_encodable k = true /\ encodable v = true).
    { intros key val Hkey -> Hu He. rewrite Hkey in Hk. injection Hk as <-.
      split; [exact Hu|exact He]. }
    assert (Hin : k ∈ record_keys)
      by (rewrite <- Hdom; exact (elem_of_dom_2 _ _ _ Hk)).
    unfold record_keys in Hin. rewrite !elem_of_union, !elem_of_singleton in Hin.
    repeat (destruct Hin as [Hin | Hin]);
      first [ apply (Hval _ _ Htime Hin) | apply (Hval _ _ Hslack Hin)
            | apply (Hval _ _ Huser Hin) | apply (Hval _ _ Hmsg Hin)
            | apply (Hval _ _ Hname Hin) | apply (Hval _ _ Hid Hin)
            | apply (Hval _ _ Hmid Hin) | apply (Hval _ _ Hth Hin)
            | apply (Hval _ _ Hpa Hin) | apply (Hval _ _ Hre Hin)
            | apply (Hval _ _ Hat Hin) | apply (Hval _ _ Hfi Hin) ];
      vm_compute; reflexivity. }
  destruct (Hfile eq_refl eq_refl listener_name_encodable listener_id_encodable Hr)
    as (t' & Hf & Hholds).
  exists r, t'. split; [exact Hf|]. split; [exact Hholds|]. split; [exact Hmsg|].
  split; [exact Hth|]. split; [exact Hpa|exact Hfi].
Defined.


Lemma refused_lookup_still_records_run :
  web_client_users_info denied (JString "U1") = Raise SlackApiError
  /\ world_of (print_message denied hi no_file)
     = world_of (save_message_to_json denied
                   (message_data denied hi "1700000000.000001"
                      (JString "1700000000.000001") (placeholder (JString "U1"))
                      (JString "hi")) no_file).
Proof.
  split; [reflexivity|].
  exact (proj2 (refused_lookup_still_records denied hi no_file (JString "U1")
                  (JString "1700000000.000001") (JString "hi") "1700000000.000001"
                  eq_refl eq_refl eq_refl eq_refl eq_refl)).
Defined.

Lemma other_lookup_error_aborts_run :
  accept offline hi = Ok true
  /\ web_client_users_info offline (JString "U1") = Raise (OtherException "URLError")
  /\ result_of (handle_message_events offline (envelope hi) one_message)
     = Raise (OtherException "URLError")
  /\ world_of (handle_message_events offline (envelope hi) one_message) = one_message.
Proof.
  split; [reflexivity|]. split; [reflexivity|].
  destruct (other_lookup_error_aborts offline (envelope hi) hi one_message
              (JString "U1") (OtherException "URLError")
              eq_refl eq_refl eq_refl eq_refl eq_refl ltac:(discriminate))
    as (Hr & Hw & _).
  by split.
Defined.

Lemma unreadable_timestamp_aborts_run :
  accept listener listed_ts = Ok true
  /\ clock_format listener (JArray [JInt 1]) = Raise TypeError
  /\ result_of (handle_message_events listener (envelope listed_ts) one_message)
     = Raise TypeError
  /\ world_of (handle_message_events listener (envelope listed_ts) one_message)
     = one_message.
Proof.
  split; [reflexivity|]. split; [reflexivity|].
  destruct (unreadable_timestamp_aborts listener (envelope listed_ts) listed_ts
              bob_profile one_message (JString "U1") (JArray [JInt 1]) TypeError
              eq_refl eq_refl eq_refl eq_refl eq_refl eq_refl eq_refl)
    as (Hr & Hw & _).
  by split.
Defined.

Lemma rejected_event_is_dropped_run :
  accept listener (delete "user" hi) = Ok false
  /\ world_of (handle_message_events listener (envelope (delete "user" hi)) one_message)
     = one_message
  /\ result_of (handle_message_events listener (envelope (delete "user" hi)) one_message)
     = Ok tt.
Proof.
  assert (Hrej : accept listener (delete "user" hi) = Ok false) by reflexivity.
  split; [exact Hrej|].
  by rewrite (rejected_event_is_dropped listener (envelope (delete "user" hi))
                (delete "user" hi) one_message eq_refl eq_refl Hrej).
Defined.

Lemma other_envelope_types_only_acked_run :
  req_type interactive_envelope <> "events_api"
  /\ handle_message_events listener interactive_envelope one_message
     = (Ok tt, one_message,
        [Ack "env-2"; Stdout (ReceivedEventType "interactive");
         Stdout InteractiveReceived]).
Proof.
  split; [discriminate|].
  exact (other_envelope_types_only_acked listener interactive_envelope one_message
           ltac:(discriminate)).
Defined.

Lemma malformed_envelope_raises_run :
  req_type empty_envelope = "events_api"
  /\ payload empty_envelope !! "event" = None
  /\ handle_message_events listener empty_envelope one_message
     = (Raise (KeyError "event"), one_message,
        [Ack "env-3"; Stdout (ReceivedEventType "events_api")]).
Proof.
  split; [reflexivity|]. split; [reflexivity|].
  exact (proj1 (malformed_envelope_raises listener empty_envelope one_message eq_refl)
           eq_refl).
Defined.


Lemma missing_vars_are_the_unset_run :
  missing_vars partial_environ = ["SLACK_APP_TOKEN"; "CHANNEL_NAME"]
  /\ (In "CHANNEL_NAME" (missing_vars partial_environ)
      <-> In "CHANNEL_NAME" required_vars
          /\ (partial_environ !! "CHANNEL_NAME" = None
              \/ partial_environ !! "CHANNEL_NAME" = Some "")).
Proof.
  destruct (missing_vars_are_the_unset partial_environ) as (Heq & _ & Hin).
  split; [by rewrite Heq|apply Hin].
Defined.

Lemma configuration_complete_or_exit_run :
  load_configuration full_environ
    = Configured (Some "xoxb-1") (Some "xapp-1") (Some "C1") (Some "general")
  /\ load_configuration partial_environ
     = SystemExit 1 [MissingHeader; MissingVar "SLACK_APP_TOKEN";
                     MissingVar "CHANNEL_NAME"; CreateDotenvHint; CopyExampleHint].
Proof.
  split.
  - apply (proj1 (configuration_complete_or_exit full_environ)).
    intros name Hin. simpl in Hin.
    destruct Hin as [<- | [<- | [<- | [<- | []]]]]; by eexists.
  - apply (proj1 (proj2 (configuration_complete_or_exit partial_environ))).
    exists "CHANNEL_NAME". split; [simpl; auto 10|by right].
Defined.

Lemma refused_channel_never_connects_run :
  conversations_info refused (channel_id listener) = Raise SlackApiError
  /\ start_listening listener refused 10
     = Some (Ok tt,
             [Shows (StartingListener "general"); Shows (ConnectedToChannel "C1");
              ConversationsInfo "C1"; Shows BotCannotAccess; Shows AddBotHint]).
Proof.
  split; [reflexivity|].
  exact (refused_channel_never_connects listener refused 10 eq_refl).
Defined.

Lemma channel_readable_general (net : transport) :
  conversations_info net "C1" = Ok general_channel ->
  channel_readable listener net (JString "general").
Proof.
  intros Hinfo. exists general_channel, (<["name" := JString "general"]> ∅).
  by repeat split.
Defined.

Lemma listens_until_first_signal_run :
  start_listening listener interrupted 2 = None
  /\ start_listening listener interrupted 3
     = Some (Ok tt,
             session_opening listener (JString "general")
               ++ [Sleep; Sleep; Sleep] ++ [Shows StoppingListener; Disconnect]).
Proof.
  assert (Hbefore : forall k, k < 2 -> sleep interrupted k = None).
  { intros k Hk. simpl. by rewrite bool_decide_eq_false_2 by lia. }
  split.
  - apply (listens_until_first_signal listener interrupted (JString "general")
             KeyboardInterrupt 2 2 (channel_readable_general interrupted eq_refl)
             eq_refl eq_refl Hbefore). lia.
  - apply (listens_until_first_signal listener interrupted (JString "general")
             KeyboardInterrupt 2 3 (channel_readable_general interrupted eq_refl)
             eq_refl eq_refl Hbefore). lia.
Defined.

Lemma listens_forever_without_signal_run :
  start_listening listener quiet 1000 = None.
Proof.
  exact (listens_forever_without_signal listener quiet (JString "general") 1000
           (channel_readable_general quiet eq_refl) eq_refl (fun _ => eq_refl)).
Defined.

Lemma connect_is_paired_with_disconnect_run :
  exists tr,
    start_listening listener interrupted 3 = Some (Ok tt, tr)
    /\ In Connect tr
    /\ last tr = Some Disconnect.
Proof.
  eexists. split; [reflexivity|].
  split; [simpl; auto 10|].
  apply (connect_is_paired_with_disconnect listener interrupted 3 (Ok tt) _ eq_refl).
  simpl; auto 10.
Defined.

Lemma unreadable_channel_info_raises_run :
  conversations_info nameless (channel_id listener) = Ok ∅
  /\ start_listening listener nameless 10
     = Some (Raise TypeError,
             [Shows (StartingListener "general"); Shows (ConnectedToChannel "C1");
              ConversationsInfo "C1"]).
Proof.
  split; [reflexivity|].
  apply (proj1 (unreadable_channel_info_raises listener nameless ∅ 10 eq_refl)).
  intros channel. by rewrite lookup_empty.
Defined.

End CoverageRuns.
